(** * WAN tutorial: policy-based routing and QoS flow metrics

    A shallow embedding of the two decision procedures of the repository:

    - [Pbr]: the methods [PbrRouting::RouteOutput] and
      [PbrRouting::RouteInput] of [pbr-simulation-complete.cc];
    - [QoS]: the function [CheckMetrics] of [qos-implementation.cc].

    Conventions.  A smart pointer [Ptr<T>] is an [option T]; dereferencing
    a null pointer ends the call with [NullDereference].  A [uint8_t] or
    [uint32_t] is a [Z] with its wrap-around written out.  A C++ [double]
    is a primitive binary64 [float]. *)

From Stdlib Require Import ZArith List String Bool Lia Floats.
Import ListNotations.
Local Open Scope Z_scope.

(** ** Pointers and faulting calls *)

Definition Ptr (T : Type) : Type := option T.

Inductive Outcome (A : Type) : Type :=
| Done (a : A)
| NullDereference.

Arguments Done {A} a.
Arguments NullDereference {A}.

Definition deref {T A : Type} (p : Ptr T) (k : T -> Outcome A) : Outcome A :=
  match p with
  | Some t => k t
  | None => NullDereference
  end.

Notation "x <-* p ;; k" := (deref p (fun x => k))
  (at level 61, p at next level, right associativity).

Definition to_uint8 (z : Z) : Z := z mod 256.
Definition to_uint32 (z : Z) : Z := z mod 4294967296.

(** ** Part I: [pbr-simulation-complete.cc] *)

Module Pbr.

(** An IPv4 address is the 32-bit number the simulator stores. *)
Definition Ipv4Address : Type := Z.

(** What the simulation framework declares and this file only uses: the
    opaque object types, the two header accessors that [RouteOutput]
    calls, and the state [World] that a routing protocol may read and
    change while it decides (its tables, the packet, the callbacks it
    fires). *)
Class Framework : Type := {
  Packet : Type;
  NetDevice : Type;
  Ipv4Header : Type;
  SocketErrno : Type;
  UnicastForwardCallback : Type;
  MulticastForwardCallback : Type;
  LocalDeliverCallback : Type;
  ErrorCallback : Type;
  World : Type;
  GetDscp : Ipv4Header -> Z;
  GetDestination : Ipv4Header -> Ipv4Address
}.

Section Routing.
Context {fw : Framework}.

(** [Ipv4Route]: the four members and their setters. *)
Record Ipv4Route : Type := {
  m_dest : Ipv4Address;
  m_source : Ipv4Address;
  m_gateway : Ipv4Address;
  m_outputDevice : Ptr NetDevice
}.

Definition SetDestination (r : Ipv4Route) (dest : Ipv4Address) : Ipv4Route :=
  {| m_dest := dest; m_source := m_source r;
     m_gateway := m_gateway r; m_outputDevice := m_outputDevice r |}.

Definition SetSource (r : Ipv4Route) (src : Ipv4Address) : Ipv4Route :=
  {| m_dest := m_dest r; m_source := src;
     m_gateway := m_gateway r; m_outputDevice := m_outputDevice r |}.

Definition SetGateway (r : Ipv4Route) (gw : Ipv4Address) : Ipv4Route :=
  {| m_dest := m_dest r; m_source := m_source r;
     m_gateway := gw; m_outputDevice := m_outputDevice r |}.

Definition SetOutputDevice (r : Ipv4Route) (dev : Ptr NetDevice) : Ipv4Route :=
  {| m_dest := m_dest r; m_source := m_source r;
     m_gateway := m_gateway r; m_outputDevice := dev |}.

(** [Create<Ipv4Route>()]: a route whose members are not yet set. *)
Definition Create_Ipv4Route : Ipv4Route :=
  {| m_dest := 0; m_source := 0; m_gateway := 0; m_outputDevice := None |}.

Record Ipv4InterfaceAddress : Type := { GetLocal : Ipv4Address }.

(** The two pure virtual methods of [Ipv4RoutingProtocol].  [RouteOutput]
    takes the socket error by reference: the value goes in and the value
    after the call comes out, next to the returned route. *)
Record Ipv4RoutingProtocol : Type := {
  proto_RouteOutput :
    Ptr Packet -> Ipv4Header -> Ptr NetDevice -> SocketErrno -> World ->
    Ptr Ipv4Route * SocketErrno * World;
  proto_RouteInput :
    Ptr Packet -> Ipv4Header -> Ptr NetDevice ->
    UnicastForwardCallback -> MulticastForwardCallback ->
    LocalDeliverCallback -> ErrorCallback -> World ->
    bool * World
}.

(** The part of the [Ipv4] object that the routing methods call. *)
Record Ipv4 : Type := {
  GetAddress : Z -> Z -> Ipv4InterfaceAddress;
  GetNetDevice : Z -> Ptr NetDevice;
  GetRoutingProtocol : Ptr Ipv4RoutingProtocol
}.

Record PbrRouting : Type := {
  m_ipv4 : Ptr Ipv4;
  m_videoNextHop : Ipv4Address;
  m_dataNextHop : Ipv4Address;
  m_videoIfIndex : Z;
  m_dataIfIndex : Z
}.

(** The constructor stores its four arguments; [m_ipv4] starts null. *)
Definition PbrRouting_new (videoNextHop dataNextHop : Ipv4Address)
    (videoIfIndex dataIfIndex : Z) : PbrRouting :=
  {| m_ipv4 := None;
     m_videoNextHop := videoNextHop;
     m_dataNextHop := dataNextHop;
     m_videoIfIndex := to_uint32 videoIfIndex;
     m_dataIfIndex := to_uint32 dataIfIndex |}.

Definition SetIpv4 (self : PbrRouting) (ipv4 : Ptr Ipv4) : PbrRouting :=
  {| m_ipv4 := ipv4;
     m_videoNextHop := m_videoNextHop self;
     m_dataNextHop := m_dataNextHop self;
     m_videoIfIndex := m_videoIfIndex self;
     m_dataIfIndex := m_dataIfIndex self |}.

Definition DSCP_VIDEO_EF : Z := 0x2e.
Definition DSCP_DATA_BE : Z := 0x00.

Definition RouteOutput (self : PbrRouting) (p : Ptr Packet)
    (header : Ipv4Header) (oif : Ptr NetDevice) (sockerr : SocketErrno)
    (w : World) : Outcome (Ptr Ipv4Route * SocketErrno * World) :=
  let dscp := to_uint8 (GetDscp header) in
  if dscp =? DSCP_VIDEO_EF then
    ipv4 <-* m_ipv4 self ;;
    let route := Create_Ipv4Route in
    let route := SetDestination route (GetDestination header) in
    let route := SetSource route (GetLocal (GetAddress ipv4 (m_videoIfIndex self) 0)) in
    let route := SetGateway route (m_videoNextHop self) in
    let route := SetOutputDevice route (GetNetDevice ipv4 (m_videoIfIndex self)) in
    Done (Some route, sockerr, w)
  else if dscp =? DSCP_DATA_BE then
    ipv4 <-* m_ipv4 self ;;
    let route := Create_Ipv4Route in
    let route := SetDestination route (GetDestination header) in
    let route := SetSource route (GetLocal (GetAddress ipv4 (m_dataIfIndex self) 0)) in
    let route := SetGateway route (m_dataNextHop self) in
    let route := SetOutputDevice route (GetNetDevice ipv4 (m_dataIfIndex self)) in
    Done (Some route, sockerr, w)
  else
    ipv4 <-* m_ipv4 self ;;
    fallback <-* GetRoutingProtocol ipv4 ;;
    Done (proto_RouteOutput fallback p header oif sockerr w).

Definition RouteInput (self : PbrRouting) (p : Ptr Packet)
    (header : Ipv4Header) (idev : Ptr NetDevice)
    (ucb : UnicastForwardCallback) (mcb : MulticastForwardCallback)
    (lcb : LocalDeliverCallback) (ecb : ErrorCallback)
    (w : World) : Outcome (bool * World) :=
  ipv4 <-* m_ipv4 self ;;
  fallback <-* GetRoutingProtocol ipv4 ;;
  Done (proto_RouteInput fallback p header idev ucb mcb lcb ecb w).

(** The route that a policy branch builds from one egress path. *)
Definition policy_route (ipv4 : Ipv4) (nextHop : Ipv4Address) (ifIndex : Z)
    (dest : Ipv4Address) : Ipv4Route :=
  {| m_dest := dest;
     m_source := GetLocal (GetAddress ipv4 ifIndex 0);
     m_gateway := nextHop;
     m_outputDevice := GetNetDevice ipv4 ifIndex |}.

End Routing.
End Pbr.

(** ** Part II: [qos-implementation.cc] *)

Module QoS.
Local Open Scope float_scope.

Definition FlowId : Type := Z.

(** [Ipv4FlowClassifier::FiveTuple]. *)
Record FiveTuple : Type := {
  sourceAddress : Z;
  destinationAddress : Z;
  protocol : Z;
  sourcePort : Z;
  destinationPort : Z
}.

(** A [Time] is read through [GetSeconds], which yields a [double]. *)
Record Time : Type := { GetSeconds : float }.

(** The members of [FlowMonitor::FlowStats] that [CheckMetrics] reads.
    The packet counters are [uint32_t]. *)
Record FlowStats : Type := {
  txPackets : Z;
  rxPackets : Z;
  delaySum : Time;
  jitterSum : Time
}.

(** Conversion of a [uint32_t] counter to [double]; it is exact. *)
Definition uint32_to_double (n : Z) : float :=
  PrimFloat.of_uint63 (Uint63.of_Z (to_uint32 n)).

Definition SIMULATION_TIME : float := 15.0.

(** The seven accumulators declared at the top of [CheckMetrics]. *)
Record Totals : Type := {
  totalTxVoIP : float;
  totalRxVoIP : float;
  totalDelayVoIP : float;
  totalJitterVoIP : float;
  totalTxFTP : float;
  totalRxFTP : float;
  totalDelayFTP : float
}.

Definition Totals_init : Totals :=
  {| totalTxVoIP := 0; totalRxVoIP := 0; totalDelayVoIP := 0;
     totalJitterVoIP := 0;
     totalTxFTP := 0; totalRxFTP := 0; totalDelayFTP := 0 |}.

(** One iteration of the loop over the flow map. *)
Definition loop_body (FindFlow : FlowId -> FiveTuple) (acc : Totals)
    (i : FlowId * FlowStats) : Totals :=
  let t := FindFlow (fst i) in
  if (sourcePort t =? 9)%Z then
    {| totalTxVoIP := totalTxVoIP acc + uint32_to_double (txPackets (snd i));
       totalRxVoIP := totalRxVoIP acc + uint32_to_double (rxPackets (snd i));
       totalDelayVoIP := totalDelayVoIP acc + GetSeconds (delaySum (snd i));
       totalJitterVoIP := totalJitterVoIP acc + GetSeconds (jitterSum (snd i));
       totalTxFTP := totalTxFTP acc;
       totalRxFTP := totalRxFTP acc;
       totalDelayFTP := totalDelayFTP acc |}
  else if (sourcePort t =? 10)%Z then
    {| totalTxVoIP := totalTxVoIP acc;
       totalRxVoIP := totalRxVoIP acc;
       totalDelayVoIP := totalDelayVoIP acc;
       totalJitterVoIP := totalJitterVoIP acc;
       totalTxFTP := totalTxFTP acc + uint32_to_double (txPackets (snd i));
       totalRxFTP := totalRxFTP acc + uint32_to_double (rxPackets (snd i));
       totalDelayFTP := totalDelayFTP acc + GetSeconds (delaySum (snd i)) |}
  else acc.

(** The loop: the map is walked in key order, here the order of the list. *)
Definition accumulate (FindFlow : FlowId -> FiveTuple)
    (stats : list (FlowId * FlowStats)) : Totals :=
  fold_left (loop_body FindFlow) stats Totals_init.

(** *** Divisions are recorded

    Every [/] of the function is evaluated through [fdiv], which returns
    the IEEE quotient and records the operands next to the name of the
    variable being computed. *)

Inductive MeasuredClass : Type := VoIP | FTP.

Record Division : Type := {
  div_class : MeasuredClass;
  div_target : string;
  dividend : float;
  divisor : float
}.

Definition Traced (A : Type) : Type := (A * list Division)%type.

Definition ret {A : Type} (a : A) : Traced A := (a, []).

Definition bind {A B : Type} (m : Traced A) (k : A -> Traced B) : Traced B :=
  let '(a, t1) := m in
  let '(b, t2) := k a in
  (b, t1 ++ t2).

Notation "x <- m ;; k" := (bind m (fun x => k))
  (at level 61, m at next level, right associativity).

Definition fdiv (c : MeasuredClass) (target : string) (x y : float)
  : Traced float :=
  (x / y, [ {| div_class := c; div_target := target;
               dividend := x; divisor := y |} ]).

(** *** What is printed

    A printed metric line is its label, the number and the text after the
    number; a block is a title line followed by its metric lines.  Line
    breaks and the two-decimal formatting are not modelled. *)

Record MetricLine : Type := {
  label : string;
  value : float;
  trailer : string
}.

Record Block : Type := {
  title : string;
  lines : list MetricLine
}.

Record Report : Type := {
  banner : string;
  blocks : list Block
}.

Definition title_VoIP : string := "VoIP (High Priority / DSCP EF):".
Definition title_FTP : string := "FTP (Low Priority / DSCP BE):".
Definition label_loss : string := "  Packet Loss: ".
Definition label_latency : string := "  Avg Latency: ".
Definition label_jitter : string := "  Avg Jitter:  ".
Definition label_throughput : string := "  Throughput:  ".

Definition report_VoIP (T : Totals) : Traced (list Block) :=
  if 0 <? totalRxVoIP T then
    q <- fdiv VoIP "lossVoIP" (totalTxVoIP T - totalRxVoIP T) (totalTxVoIP T) ;;
    let lossVoIP := q * 100.0 in
    q <- fdiv VoIP "avgDelayVoIP" (totalDelayVoIP T) (totalRxVoIP T) ;;
    let avgDelayVoIP := q * 1000.0 in
    q <- fdiv VoIP "avgJitterVoIP" (totalJitterVoIP T) (totalRxVoIP T) ;;
    let avgJitterVoIP := q * 1000.0 in
    ret [ {| title := title_VoIP;
             lines :=
               [ {| label := label_loss; value := lossVoIP;
                    trailer := " % [Expected: Near 0%]" |};
                 {| label := label_latency; value := avgDelayVoIP;
                    trailer := " ms [Expected: Low]" |};
                 {| label := label_jitter; value := avgJitterVoIP;
                    trailer := " ms [Expected: Low]" |} ] |} ]
  else ret [].

Definition report_FTP (T : Totals) : Traced (list Block) :=
  if 0 <? totalRxFTP T then
    q <- fdiv FTP "lossFTP" (totalTxFTP T - totalRxFTP T) (totalTxFTP T) ;;
    let lossFTP := q * 100.0 in
    q <- fdiv FTP "throughputFTP" (totalRxFTP T * 1500.0 * 8.0)
           ((SIMULATION_TIME - 3.0) * 1000000.0) ;;
    let throughputFTP := q in
    q <- fdiv FTP "avgDelayFTP" (totalDelayFTP T) (totalRxFTP T) ;;
    let avgDelayFTP := q * 1000.0 in
    ret [ {| title := title_FTP;
             lines :=
               [ {| label := label_loss; value := lossFTP;
                    trailer := " % [Expected: High]" |};
                 {| label := label_latency; value := avgDelayFTP;
                    trailer := " ms [Expected: High]" |};
                 {| label := label_throughput; value := throughputFTP;
                    trailer := " Mbps [Expected: Bottlenecked]" |} ] |} ]
  else ret [].

Definition CheckMetrics (FindFlow : FlowId -> FiveTuple)
    (stats : list (FlowId * FlowStats)) : Traced Report :=
  let T := accumulate FindFlow stats in
  voip <- report_VoIP T ;;
  ftp <- report_FTP T ;;
  ret {| banner := "--- Q3: QoS Performance Verification ---";
         blocks := voip ++ ftp |}.

(** *** Reading a report *)

Definition find_block (t : string) (r : Report) : option Block :=
  find (fun b => String.eqb (title b) t) (blocks r).

Definition find_metric (l : string) (b : Block) : option float :=
  option_map value (find (fun m => String.eqb (label m) l) (lines b)).

(** The metric [l] of the block titled [t], when both are printed. *)
Definition printed_metric (t l : string) (r : Report) : option float :=
  match find_block t r with
  | Some b => find_metric l b
  | None => None
  end.

Definition MeasuredClass_eqb (a b : MeasuredClass) : bool :=
  match a, b with
  | VoIP, VoIP | FTP, FTP => true
  | _, _ => false
  end.

Definition class_title (c : MeasuredClass) : string :=
  match c with VoIP => title_VoIP | FTP => title_FTP end.

Definition class_totalTx (c : MeasuredClass) (T : Totals) : float :=
  match c with VoIP => totalTxVoIP T | FTP => totalTxFTP T end.

Definition class_totalRx (c : MeasuredClass) (T : Totals) : float :=
  match c with VoIP => totalRxVoIP T | FTP => totalRxFTP T end.


(** The source port by which the loop recognises a flow of class [c]. *)
Definition class_port (c : MeasuredClass) : Z :=
  match c with VoIP => 9%Z | FTP => 10%Z end.

(** The divisions that were evaluated for class [c]. *)
Definition divisions_of (c : MeasuredClass) (t : list Division)
  : list Division :=
  filter (fun d => MeasuredClass_eqb (div_class d) c) t.

(** The loss division of class [c] evaluated with a zero divisor. *)
Definition zero_loss_division (c : MeasuredClass) (d : Division) : bool :=
  MeasuredClass_eqb (div_class d) c
  && String.eqb (div_target d)
       (match c with VoIP => "lossVoIP" | FTP => "lossFTP" end)
  && (divisor d =? 0).

(** A double that is not negative: [+0], a positive finite number,
    [+infinity], or a NaN. *)
Definition unsigned_spec (x : spec_float) : bool :=
  match x with
  | S754_zero s | S754_infinity s | S754_finite s _ _ => negb s
  | S754_nan => true
  end.

Definition unsigned_double (x : float) : bool := unsigned_spec (Prim2SF x).

(** *** The formulas as the specification words them *)

Definition observationWindowSeconds : float := SIMULATION_TIME - 3.0.

Definition spec_lossPercent (transmitted received : float) : float :=
  (transmitted - received) / transmitted * 100.



(** *** Two guards that the specification describes

    [zero_tx_guard]: a class whose transmitted total is zero is left out
    of the report and its loss division is not evaluated with a zero
    divisor.  [loss_clamped]: a class that received more than was
    transmitted is reported with a loss of zero. *)

Definition zero_tx_guard (FindFlow : FlowId -> FiveTuple)
    (stats : list (FlowId * FlowStats)) (c : MeasuredClass) : Prop :=
  (class_totalTx c (accumulate FindFlow stats) =? 0) = true ->
  find_block (class_title c) (fst (CheckMetrics FindFlow stats)) = None
  /\ existsb (zero_loss_division c) (snd (CheckMetrics FindFlow stats)) = false.

Definition loss_clamped (FindFlow : FlowId -> FiveTuple)
    (stats : list (FlowId * FlowStats)) (c : MeasuredClass) : Prop :=
  (class_totalTx c (accumulate FindFlow stats)
   <? class_totalRx c (accumulate FindFlow stats)) = true ->
  exists v,
    printed_metric (class_title c) label_loss
      (fst (CheckMetrics FindFlow stats)) = Some v
    /\ (v =? 0) = true.

(** *** Sample flow maps *)

Definition flow (tx rx : Z) (delay jitter : float) : FlowStats :=
  {| txPackets := tx; rxPackets := rx;
     delaySum := {| GetSeconds := delay |};
     jitterSum := {| GetSeconds := jitter |} |}.

(** A classifier under which flow [n] has source port [n]. *)
Definition port_is_id (id : FlowId) : FiveTuple :=
  {| sourceAddress := 0; destinationAddress := 0; protocol := 17;
     sourcePort := id; destinationPort := 0 |}.

Definition stats_rx_without_tx : list (FlowId * FlowStats) :=
  [ (9%Z, flow 0 5 0.25 0.0625) ].

Definition stats_reordered : list (FlowId * FlowStats) :=
  [ (9%Z, flow 50 60 0.5 0.125) ].

Definition stats_idle : list (FlowId * FlowStats) :=
  [ (9%Z, flow 0 0 0 0); (10%Z, flow 100 0 0 0) ].

Definition stats_mixed : list (FlowId * FlowStats) :=
  [ (9%Z, flow 100 100 0.5 0.125);
    (10%Z, flow 4000 3000 6 9);
    (53%Z, flow 7 7 1 1) ].

(** The FTP block printed for [stats_mixed]. *)
Definition ftp_block_mixed : Block :=
  {| title := title_FTP;
     lines :=
       [ {| label := label_loss; value := 25;
            trailer := " % [Expected: High]" |};
         {| label := label_latency; value := 2;
            trailer := " ms [Expected: High]" |};
         {| label := label_throughput; value := 3;
            trailer := " Mbps [Expected: Bottlenecked]" |} ] |}.

(** Overwrites the jitter sum of every flow that is not a port-9 flow. *)
Definition rejitter (FindFlow : FlowId -> FiveTuple) (j : FlowId -> Time)
    (i : FlowId * FlowStats) : FlowId * FlowStats :=
  if (sourcePort (FindFlow (fst i)) =? 9)%Z then i
  else (fst i,
        {| txPackets := txPackets (snd i); rxPackets := rxPackets (snd i);
           delaySum := delaySum (snd i); jitterSum := j (fst i) |}).

End QoS.

(** ** A concrete router for the routing theorems

    The router of [main]: next hops 10.0.2.2 and 10.0.3.2 behind
    interfaces 2 and 3.  The fallback provider is a stand-in that records
    each call it receives in the world and answers from a fixed table. *)

Module PbrExample.
Import Pbr.

Definition ip (a b c d : Z) : Ipv4Address := ((a * 256 + b) * 256 + c) * 256 + d.

Record Header : Type := {
  h_tos : Z;
  h_ttl : Z;
  h_source : Ipv4Address;
  h_destination : Ipv4Address
}.

Inductive Errno : Type := ERROR_NOTERROR | ERROR_NOROUTETOHOST.

Inductive Call : Type :=
| OutputCall (p : Ptr (list Z)) (h : Header) (oif : Ptr Z) (e : Errno)
| InputCall (p : Ptr (list Z)) (h : Header) (idev : Ptr Z)
    (ucb mcb lcb ecb : nat).

#[export] Instance framework : Framework := {|
  Packet := list Z;
  NetDevice := Z;
  Ipv4Header := Header;
  SocketErrno := Errno;
  UnicastForwardCallback := nat;
  MulticastForwardCallback := nat;
  LocalDeliverCallback := nat;
  ErrorCallback := nat;
  World := list Call;
  GetDscp := fun h => Z.shiftr (Z.land (h_tos h) 0xFC) 2;
  GetDestination := h_destination
|}.

(** The stand-in provider knows one destination, 10.0.1.1 behind
    interface 1, and reports no route to any other. *)
Definition stand_in : Ipv4RoutingProtocol := {|
  proto_RouteOutput := fun p h oif e w =>
    if h_destination h =? ip 10 0 1 1 then
      (Some {| m_dest := h_destination h; m_source := ip 10 0 1 2;
               m_gateway := ip 10 0 1 1; m_outputDevice := Some 1 |},
       e, w ++ [OutputCall p h oif e])
    else (None, ERROR_NOROUTETOHOST, w ++ [OutputCall p h oif e]);
  proto_RouteInput := fun p h idev ucb mcb lcb ecb w =>
    (h_destination h =? ip 10 0 1 1,
     w ++ [InputCall p h idev ucb mcb lcb ecb])
|}.

Definition router_ipv4 : Ipv4 := {|
  GetAddress := fun i _ => {| GetLocal := ip 10 0 i 1 |};
  GetNetDevice := fun i => if (1 <=? i) && (i <=? 3) then Some i else None;
  GetRoutingProtocol := Some stand_in
|}.

Definition pbr : PbrRouting :=
  SetIpv4 (PbrRouting_new (ip 10 0 2 2) (ip 10 0 3 2) 2 3) (Some router_ipv4).

Definition header_to (tos : Z) (dst : Ipv4Address) : Header :=
  {| h_tos := tos; h_ttl := 64; h_source := ip 10 0 1 1;
     h_destination := dst |}.

Definition packet : Ptr (list Z) := Some [69; 0; 0; 28].

(** A destination that the stand-in provider does not know. *)
Definition far : Ipv4Address := ip 10 0 9 9.

End PbrExample.

(** ** The engine's other methods

    The constructor and [SetIpv4] are in [Pbr]; here are the four
    notification overrides and the calls an engine can receive between
    two routing decisions. *)

Module PbrLifecycle.
Import Pbr.

Section Methods.
Context {fw : Framework}.

(** The four notification overrides have empty bodies. *)
Definition NotifyInterfaceUp (self : PbrRouting) (interface : Z)
  : PbrRouting := self.

Definition NotifyInterfaceDown (self : PbrRouting) (interface : Z)
  : PbrRouting := self.

Definition NotifyAddAddress (self : PbrRouting) (interface : Z)
    (address : Ipv4InterfaceAddress) : PbrRouting := self.

Definition NotifyRemoveAddress (self : PbrRouting) (interface : Z)
    (address : Ipv4InterfaceAddress) : PbrRouting := self.

(** A call of one of the state-changing methods of the class. *)
Inductive MethodCall : Type :=
| CallSetIpv4 (ipv4 : Ptr Ipv4)
| CallNotifyInterfaceUp (interface : Z)
| CallNotifyInterfaceDown (interface : Z)
| CallNotifyAddAddress (interface : Z) (address : Ipv4InterfaceAddress)
| CallNotifyRemoveAddress (interface : Z) (address : Ipv4InterfaceAddress).

Definition invoke (self : PbrRouting) (c : MethodCall) : PbrRouting :=
  match c with
  | CallSetIpv4 ipv4 => SetIpv4 self ipv4
  | CallNotifyInterfaceUp i => NotifyInterfaceUp self i
  | CallNotifyInterfaceDown i => NotifyInterfaceDown self i
  | CallNotifyAddAddress i a => NotifyAddAddress self i a
  | CallNotifyRemoveAddress i a => NotifyRemoveAddress self i a
  end.

Definition invoke_all (self : PbrRouting) (calls : list MethodCall)
  : PbrRouting :=
  fold_left invoke calls self.

(** The argument of the last [SetIpv4] among [calls], or [current]. *)
Definition last_SetIpv4 (current : Ptr Ipv4) (calls : list MethodCall)
  : Ptr Ipv4 :=
  fold_left
    (fun cur c => match c with CallSetIpv4 ipv4 => ipv4 | _ => cur end)
    calls current.

(** The same [Ipv4] object with another routing protocol installed. *)
Definition with_provider (ipv4 : Ipv4) (p : Ptr Ipv4RoutingProtocol) : Ipv4 :=
  {| GetAddress := GetAddress ipv4;
     GetNetDevice := GetNetDevice ipv4;
     GetRoutingProtocol := p |}.

End Methods.
End PbrLifecycle.

(** ** Flows and counters of one class *)

Module QoSCounts.
Import QoS.
Local Open Scope float_scope.

(** Whether the loop attributes flow [i] to class [c]. *)
Definition is_flow_of (FindFlow : FlowId -> FiveTuple) (c : MeasuredClass)
    (i : FlowId * FlowStats) : bool :=
  (sourcePort (FindFlow (fst i)) =? class_port c)%Z.

Definition flows_of (FindFlow : FlowId -> FiveTuple) (c : MeasuredClass)
    (stats : list (FlowId * FlowStats)) : list (FlowId * FlowStats) :=
  filter (is_flow_of FindFlow c) stats.

(** Some flow of class [c] has a received counter other than zero. *)
Definition class_received (FindFlow : FlowId -> FiveTuple)
    (c : MeasuredClass) (stats : list (FlowId * FlowStats)) : bool :=
  existsb
    (fun i => is_flow_of FindFlow c i
              && negb (to_uint32 (rxPackets (snd i)) =? 0)%Z)
    stats.

(** Some flow of class [c] has a transmitted counter other than zero. *)
Definition class_transmitted (FindFlow : FlowId -> FiveTuple)
    (c : MeasuredClass) (stats : list (FlowId * FlowStats)) : bool :=
  existsb
    (fun i => is_flow_of FindFlow c i
              && negb (to_uint32 (txPackets (snd i)) =? 0)%Z)
    stats.

(** The accumulators of class [c], the others at their initial zero. *)
Definition class_part (c : MeasuredClass) (T : Totals) : Totals :=
  match c with
  | VoIP =>
      {| totalTxVoIP := totalTxVoIP T; totalRxVoIP := totalRxVoIP T;
         totalDelayVoIP := totalDelayVoIP T;
         totalJitterVoIP := totalJitterVoIP T;
         totalTxFTP := 0; totalRxFTP := 0; totalDelayFTP := 0 |}
  | FTP =>
      {| totalTxVoIP := 0; totalRxVoIP := 0; totalDelayVoIP := 0;
         totalJitterVoIP := 0;
         totalTxFTP := totalTxFTP T; totalRxFTP := totalRxFTP T;
         totalDelayFTP := totalDelayFTP T |}
  end.

(** A flow map with background traffic only. *)
Definition stats_background : list (FlowId * FlowStats) :=
  [ (53%Z, flow 7 7 1 1); (443%Z, flow 20 19 2 1) ].

(** The classifier [port_is_id] with every other field changed. *)
Definition port_is_id_elsewhere (id : FlowId) : FiveTuple :=
  {| sourceAddress := 167772161; destinationAddress := 167772418;
     protocol := 6; sourcePort := id; destinationPort := 9 |}.

(** [+0], a positive finite number or [+infinity]. *)
Definition nonneg_spec (x : spec_float) : bool :=
  match x with
  | S754_zero false | S754_finite false _ _ | S754_infinity false => true
  | _ => false
  end.

(** A positive finite number or [+infinity]. *)
Definition positive_spec (x : spec_float) : bool :=
  match x with
  | S754_finite false _ _ | S754_infinity false => true
  | _ => false
  end.

Definition nonneg_double (x : float) : bool := nonneg_spec (Prim2SF x).
Definition positive_double (x : float) : bool := positive_spec (Prim2SF x).

End QoSCounts.

(** * Theorems *)

(** ** The routing decision *)

Module PbrProofs.
Import Pbr.

Lemma to_uint8_range z : 0 <= to_uint8 z < 256.
Proof. unfold to_uint8. apply Z.mod_pos_bound. lia. Qed.

Section Decision.
Context {fw : Framework}.
Variables (self : PbrRouting) (ipv4 : Ipv4).
Hypothesis attached : m_ipv4 self = Some ipv4.

Lemma RouteOutput_video p header oif sockerr w :
  to_uint8 (GetDscp header) = DSCP_VIDEO_EF ->
  RouteOutput self p header oif sockerr w =
  Done (Some (policy_route ipv4 (m_videoNextHop self) (m_videoIfIndex self)
                (GetDestination header)), sockerr, w).
Proof.
  intros Hd. unfold RouteOutput. rewrite Hd, attached. reflexivity.
Qed.

Lemma RouteOutput_data p header oif sockerr w :
  to_uint8 (GetDscp header) = DSCP_DATA_BE ->
  RouteOutput self p header oif sockerr w =
  Done (Some (policy_route ipv4 (m_dataNextHop self) (m_dataIfIndex self)
                (GetDestination header)), sockerr, w).
Proof.
  intros Hd. unfold RouteOutput. rewrite Hd, attached. reflexivity.
Qed.

Lemma RouteOutput_other p header oif sockerr w :
  to_uint8 (GetDscp header) <> DSCP_VIDEO_EF ->
  to_uint8 (GetDscp header) <> DSCP_DATA_BE ->
  RouteOutput self p header oif sockerr w =
  (fallback <-* GetRoutingProtocol ipv4 ;;
   Done (proto_RouteOutput fallback p header oif sockerr w)).
Proof.
  intros Hv Hb. unfold RouteOutput.
  destruct (Z.eqb_spec (to_uint8 (GetDscp header)) DSCP_VIDEO_EF) as [E | _];
    [contradiction |].
  destruct (Z.eqb_spec (to_uint8 (GetDscp header)) DSCP_DATA_BE) as [E | _];
    [contradiction |].
  rewrite attached. reflexivity.
Qed.

End Decision.

(** C1.  With the engine attached to its [Ipv4] object, every header falls
    in exactly one of three cases decided by its marking alone: marking
    0x2e returns the route through the video next hop and the video
    interface, marking 0x00 the route through the data next hop and the
    data interface, each with the header's destination as destination,
    and any other marking takes neither policy branch: the call is the
    fallback provider's.  The gateway and the output device of a policy
    route are read from the configuration only. *)
Theorem RouteOutput_classification {fw : Framework}
    (self : PbrRouting) (ipv4 : Ipv4) (attached : m_ipv4 self = Some ipv4)
    (p : Ptr Packet) (header : Ipv4Header) (oif : Ptr NetDevice)
    (sockerr : SocketErrno) (w : World) :
  let dscp := to_uint8 (GetDscp header) in
  (dscp = 0x2e ->
   exists route,
     RouteOutput self p header oif sockerr w = Done (Some route, sockerr, w)
     /\ m_gateway route = m_videoNextHop self
     /\ m_outputDevice route = GetNetDevice ipv4 (m_videoIfIndex self)
     /\ m_source route = GetLocal (GetAddress ipv4 (m_videoIfIndex self) 0)
     /\ m_dest route = GetDestination header)
  /\ (dscp = 0x00 ->
      exists route,
        RouteOutput self p header oif sockerr w = Done (Some route, sockerr, w)
        /\ m_gateway route = m_dataNextHop self
        /\ m_outputDevice route = GetNetDevice ipv4 (m_dataIfIndex self)
        /\ m_source route = GetLocal (GetAddress ipv4 (m_dataIfIndex self) 0)
        /\ m_dest route = GetDestination header)
  /\ (dscp <> 0x2e -> dscp <> 0x00 ->
      RouteOutput self p header oif sockerr w =
      match GetRoutingProtocol ipv4 with
      | Some fallback => Done (proto_RouteOutput fallback p header oif sockerr w)
      | None => NullDereference
      end)
  /\ (dscp = 0x2e \/ dscp = 0x00 \/ (dscp <> 0x2e /\ dscp <> 0x00)).
Proof.
  intros dscp. repeat split.
  - intros Hd. eexists. split.
    + apply (RouteOutput_video self ipv4 attached). exact Hd.
    + repeat split.
  - intros Hd. eexists. split.
    + apply (RouteOutput_data self ipv4 attached). exact Hd.
    + repeat split.
  - intros Hv Hb.
    rewrite (RouteOutput_other self ipv4 attached) by assumption.
    reflexivity.
  - lia.
Qed.

(** C5.  For a marking other than 0x2e and 0x00, with a fallback provider
    installed, [RouteOutput] is one call of the provider's [RouteOutput]
    on the same packet, header, output-interface hint and socket error,
    in the same world: the route (or null), the socket error and the
    world after the call are the provider's, unchanged. *)
Theorem RouteOutput_delegates_verbatim {fw : Framework}
    (self : PbrRouting) (ipv4 : Ipv4) (fallback : Ipv4RoutingProtocol)
    (attached : m_ipv4 self = Some ipv4)
    (installed : GetRoutingProtocol ipv4 = Some fallback)
    (p : Ptr Packet) (header : Ipv4Header) (oif : Ptr NetDevice)
    (sockerr : SocketErrno) (w : World) :
  to_uint8 (GetDscp header) <> 0x2e ->
  to_uint8 (GetDscp header) <> 0x00 ->
  RouteOutput self p header oif sockerr w =
  Done (proto_RouteOutput fallback p header oif sockerr w).
Proof.
  intros Hv Hb.
  rewrite (RouteOutput_other self ipv4 attached) by assumption.
  rewrite installed. reflexivity.
Qed.

(** C8.  [RouteInput] reads neither the header nor the policy fields: with
    a fallback provider installed it is one call of the provider's
    [RouteInput] on the same seven arguments in the same world, and it
    returns the provider's boolean and world. *)
Theorem RouteInput_delegates {fw : Framework}
    (self : PbrRouting) (ipv4 : Ipv4) (fallback : Ipv4RoutingProtocol)
    (attached : m_ipv4 self = Some ipv4)
    (installed : GetRoutingProtocol ipv4 = Some fallback)
    (p : Ptr Packet) (header : Ipv4Header) (idev : Ptr NetDevice)
    (ucb : UnicastForwardCallback) (mcb : MulticastForwardCallback)
    (lcb : LocalDeliverCallback) (ecb : ErrorCallback) (w : World) :
  RouteInput self p header idev ucb mcb lcb ecb w =
  Done (proto_RouteInput fallback p header idev ucb mcb lcb ecb w).
Proof.
  unfold RouteInput. rewrite attached. simpl. rewrite installed. reflexivity.
Qed.

(** C9.  On a policy marking (0x2e or 0x00) the call returns the socket
    error and the world it was given, and its route is the same for any
    packet, any output-interface hint and any header with the same
    marking and destination.  Hence a call that returns a socket error
    other than the one it was given had a marking outside the policy. *)
Theorem RouteOutput_policy_frame {fw : Framework}
    (self : PbrRouting) (ipv4 : Ipv4) (attached : m_ipv4 self = Some ipv4)
    (header : Ipv4Header) :
  (to_uint8 (GetDscp header) = 0x2e \/ to_uint8 (GetDscp header) = 0x00 ->
   exists route,
     forall (p : Ptr Packet) (oif : Ptr NetDevice) (sockerr : SocketErrno)
            (w : World) (header' : Ipv4Header),
       to_uint8 (GetDscp header') = to_uint8 (GetDscp header) ->
       GetDestination header' = GetDestination header ->
       RouteOutput self p header' oif sockerr w = Done (Some route, sockerr, w))
  /\ (forall (p : Ptr Packet) (oif : Ptr NetDevice) (sockerr : SocketErrno)
             (w : World) r sockerr' w',
        RouteOutput self p header oif sockerr w = Done (r, sockerr', w') ->
        sockerr' <> sockerr ->
        to_uint8 (GetDscp header) <> 0x2e /\ to_uint8 (GetDscp header) <> 0x00).
Proof.
  split.
  - intros [Hd | Hd].
    + eexists. intros p oif sockerr w header' Hm Hdst.
      rewrite (RouteOutput_video self ipv4 attached)
        by (unfold DSCP_VIDEO_EF; congruence).
      rewrite Hdst. reflexivity.
    + eexists. intros p oif sockerr w header' Hm Hdst.
      rewrite (RouteOutput_data self ipv4 attached)
        by (unfold DSCP_DATA_BE; congruence).
      rewrite Hdst. reflexivity.
  - intros p oif sockerr w r sockerr' w' Hcall Hneq. split; intros Hd.
    + rewrite (RouteOutput_video self ipv4 attached) in Hcall by exact Hd.
      inversion Hcall. congruence.
    + rewrite (RouteOutput_data self ipv4 attached) in Hcall by exact Hd.
      inversion Hcall. congruence.
Qed.

(** *** The theorems on the router of [main] *)

Section OnTheRouter.
Import PbrExample.

Example video_packet_route :
  RouteOutput pbr packet (header_to 0xB8 far) None ERROR_NOTERROR [] =
  Done (Some {| m_dest := far; m_source := ip 10 0 2 1;
                m_gateway := ip 10 0 2 2; m_outputDevice := Some 2 |},
        ERROR_NOTERROR, []).
Proof. reflexivity. Qed.

Example data_packet_route :
  RouteOutput pbr packet (header_to 0x00 far) (Some 1) ERROR_NOTERROR [] =
  Done (Some {| m_dest := far; m_source := ip 10 0 3 1;
                m_gateway := ip 10 0 3 2; m_outputDevice := Some 3 |},
        ERROR_NOTERROR, []).
Proof. reflexivity. Qed.

Example other_packet_no_route :
  RouteOutput pbr packet (header_to 0x28 far) (Some 1) ERROR_NOTERROR [] =
  Done (None, ERROR_NOROUTETOHOST,
        [OutputCall packet (header_to 0x28 far) (Some 1) ERROR_NOTERROR]).
Proof. reflexivity. Qed.

Example unattached_engine_faults :
  RouteOutput (PbrRouting_new (ip 10 0 2 2) (ip 10 0 3 2) 2 3)
    packet (header_to 0xB8 far) None ERROR_NOTERROR [] = NullDereference.
Proof. reflexivity. Qed.

Lemma RouteOutput_classification_witness :
  m_ipv4 pbr = Some router_ipv4
  /\ to_uint8 (GetDscp (header_to 0xB8 far)) = 0x2e
  /\ exists route,
       RouteOutput pbr packet (header_to 0xB8 far) None ERROR_NOTERROR [] =
       Done (Some route, ERROR_NOTERROR, [])
       /\ m_gateway route = ip 10 0 2 2
       /\ m_outputDevice route = Some 2
       /\ m_source route = ip 10 0 2 1
       /\ m_dest route = far.
Proof.
  split; [reflexivity |]. split; [reflexivity |].
  exact (proj1 (RouteOutput_classification pbr router_ipv4 eq_refl
                  packet (header_to 0xB8 far) None ERROR_NOTERROR [])
               eq_refl).
Defined.

Lemma RouteOutput_delegates_verbatim_witness :
  m_ipv4 pbr = Some router_ipv4
  /\ GetRoutingProtocol router_ipv4 = Some stand_in
  /\ to_uint8 (GetDscp (header_to 0x28 far)) <> 0x2e
  /\ to_uint8 (GetDscp (header_to 0x28 far)) <> 0x00
  /\ RouteOutput pbr packet (header_to 0x28 far) (Some 1) ERROR_NOTERROR [] =
     Done (proto_RouteOutput stand_in packet (header_to 0x28 far) (Some 1)
             ERROR_NOTERROR []).
Proof.
  split; [reflexivity |]. split; [reflexivity |].
  split; [discriminate |]. split; [discriminate |].
  apply (RouteOutput_delegates_verbatim pbr router_ipv4 stand_in
           eq_refl eq_refl);
    discriminate.
Defined.

Lemma RouteInput_delegates_witness :
  m_ipv4 pbr = Some router_ipv4
  /\ GetRoutingProtocol router_ipv4 = Some stand_in
  /\ RouteInput pbr packet (header_to 0xB8 (ip 10 0 1 1)) (Some 2) 1%nat
       2%nat 3%nat 4%nat [] =
     Done (true,
           [InputCall packet (header_to 0xB8 (ip 10 0 1 1)) (Some 2)
              1%nat 2%nat 3%nat 4%nat]).
Proof.
  split; [reflexivity |]. split; [reflexivity |].
  apply (RouteInput_delegates pbr router_ipv4 stand_in eq_refl eq_refl).
Defined.

Lemma RouteOutput_policy_frame_witness :
  m_ipv4 pbr = Some router_ipv4
  /\ to_uint8 (GetDscp (header_to 0x00 far)) = 0x00
  /\ exists route,
       forall p oif sockerr w header',
         to_uint8 (GetDscp header') = to_uint8 (GetDscp (header_to 0x00 far)) ->
         GetDestination header' = GetDestination (header_to 0x00 far) ->
         RouteOutput pbr p header' oif sockerr w =
         Done (Some route, sockerr, w).
Proof.
  split; [reflexivity |]. split; [reflexivity |].
  exact (proj1 (RouteOutput_policy_frame pbr router_ipv4 eq_refl
                  (header_to 0x00 far))
               (or_intror eq_refl)).
Defined.

End OnTheRouter.

End PbrProofs.

(** ** The flow-statistics aggregation *)

Module QoSProofs.
Import QoS.
Local Open Scope float_scope.

(** *** Signs of the packet totals *)

Lemma unsigned_round_aux mx ex lx :
  unsigned_spec (binary_round_aux prec emax false mx ex lx) = true.
Proof.
  unfold binary_round_aux.
  destruct (shr_fexp prec emax mx ex lx) as [mrs1 e1].
  destruct (shr_fexp prec emax _ e1 loc_Exact) as [mrs2 e2].
  destruct (shr_m mrs2); try reflexivity.
  destruct (Z.leb e2 (emax - prec)); reflexivity.
Qed.

Lemma unsigned_round m e :
  unsigned_spec (binary_round prec emax false m e) = true.
Proof.
  unfold binary_round.
  destruct (shl_align m e _) as [mz ez].
  apply unsigned_round_aux.
Qed.

Lemma unsigned_normalize m e :
  (0 <= m)%Z -> unsigned_spec (binary_normalize prec emax m e false) = true.
Proof.
  intros Hm. destruct m as [| q | q]; simpl.
  - reflexivity.
  - apply unsigned_round.
  - lia.
Qed.

Lemma unsigned_uint32_to_double n : unsigned_double (uint32_to_double n) = true.
Proof.
  unfold unsigned_double, uint32_to_double.
  rewrite of_uint63_spec. apply unsigned_normalize.
  apply Uint63.to_Z_bounded.
Qed.

Lemma unsigned_add x y :
  unsigned_double x = true -> unsigned_double y = true ->
  unsigned_double (x + y) = true.
Proof.
  unfold unsigned_double. rewrite add_spec. unfold SF64add.
  destruct (Prim2SF x) as [sx | sx | | sx mx ex],
           (Prim2SF y) as [sy | sy | | sy my ey];
    simpl; intros Hx Hy; try reflexivity; try assumption;
    try (destruct sx; try discriminate; destruct sy; try discriminate;
         reflexivity).
  destruct sx; try discriminate. destruct sy; try discriminate.
  apply unsigned_normalize. simpl. lia.
Qed.

Lemma ltb_unsigned_positive x y :
  unsigned_double x = true -> (x <? y) = true -> (0 <? y) = true.
Proof.
  unfold unsigned_double. rewrite !ltb_spec.
  change (Prim2SF 0) with (S754_zero false).
  unfold SFltb.
  destruct (Prim2SF x) as [sx | sx | | sx mx ex],
           (Prim2SF y) as [sy | sy | | sy my ey];
    simpl; intros Hx Hlt; try discriminate; try reflexivity;
    destruct sx; try discriminate; destruct sy; try discriminate;
    reflexivity.
Qed.

Lemma eqb_zero_not_positive x : (x =? 0) = true -> (0 <? x) = false.
Proof.
  rewrite eqb_spec, ltb_spec.
  change (Prim2SF 0) with (S754_zero false).
  unfold SFeqb, SFltb.
  destruct (Prim2SF x) as [sx | sx | | sx mx ex]; simpl;
    try reflexivity; try discriminate;
    destruct sx; try reflexivity; discriminate.
Qed.

(** *** Searching a list no element of which passes the test *)

Lemma find_all_false {A : Type} (f : A -> bool) (l : list A) :
  (forall x, In x l -> f x = false) -> find f l = None.
Proof.
  induction l as [| a l IH]; intros H; simpl.
  - reflexivity.
  - rewrite (H a (or_introl eq_refl)). apply IH.
    intros x Hx. apply H. right. exact Hx.
Qed.

Lemma filter_all_false {A : Type} (f : A -> bool) (l : list A) :
  (forall x, In x l -> f x = false) -> filter f l = [].
Proof.
  induction l as [| a l IH]; intros H; simpl.
  - reflexivity.
  - rewrite (H a (or_introl eq_refl)). apply IH.
    intros x Hx. apply H. right. exact Hx.
Qed.

(** *** The accumulation loop *)

Section Loop.
Variable FindFlow : FlowId -> FiveTuple.

Lemma loop_body_unknown acc i :
  sourcePort (FindFlow (fst i)) <> 9%Z ->
  sourcePort (FindFlow (fst i)) <> 10%Z ->
  loop_body FindFlow acc i = acc.
Proof.
  intros H9 H10. unfold loop_body.
  destruct (Z.eqb_spec (sourcePort (FindFlow (fst i))) 9); [contradiction |].
  destruct (Z.eqb_spec (sourcePort (FindFlow (fst i))) 10); [contradiction |].
  reflexivity.
Qed.

Lemma loop_body_rejitter j acc i :
  loop_body FindFlow acc (rejitter FindFlow j i) = loop_body FindFlow acc i.
Proof.
  unfold rejitter.
  destruct (Z.eqb_spec (sourcePort (FindFlow (fst i))) 9) as [E | N].
  - reflexivity.
  - unfold loop_body. simpl.
    destruct (Z.eqb_spec (sourcePort (FindFlow (fst i))) 9); [contradiction |].
    reflexivity.
Qed.

Lemma fold_rejitter j stats : forall acc,
  fold_left (loop_body FindFlow) (map (rejitter FindFlow j) stats) acc =
  fold_left (loop_body FindFlow) stats acc.
Proof.
  induction stats as [| i stats IH]; intros acc; simpl.
  - reflexivity.
  - rewrite loop_body_rejitter. apply IH.
Qed.

Lemma loop_body_tx_unsigned acc i :
  (forall c, unsigned_double (class_totalTx c acc) = true) ->
  forall c, unsigned_double (class_totalTx c (loop_body FindFlow acc i)) = true.
Proof.
  intros Hacc c. unfold loop_body.
  destruct (sourcePort (FindFlow (fst i)) =? 9)%Z;
    [| destruct (sourcePort (FindFlow (fst i)) =? 10)%Z ];
    destruct c; simpl;
    try apply (Hacc VoIP); try apply (Hacc FTP);
    apply unsigned_add;
    try apply (Hacc VoIP); try apply (Hacc FTP);
    apply unsigned_uint32_to_double.
Qed.

Lemma fold_tx_unsigned stats : forall acc,
  (forall c, unsigned_double (class_totalTx c acc) = true) ->
  forall c,
    unsigned_double
      (class_totalTx c (fold_left (loop_body FindFlow) stats acc)) = true.
Proof.
  induction stats as [| i stats IH]; intros acc Hacc c; simpl.
  - apply Hacc.
  - apply IH. apply loop_body_tx_unsigned. exact Hacc.
Qed.

Lemma accumulate_tx_unsigned stats c :
  unsigned_double (class_totalTx c (accumulate FindFlow stats)) = true.
Proof.
  unfold accumulate. apply fold_tx_unsigned.
  intros [|]; reflexivity.
Qed.

Lemma fold_rx_zero c stats : forall acc,
  class_totalRx c acc = 0 ->
  (forall i, In i stats ->
     sourcePort (FindFlow (fst i)) = class_port c ->
     to_uint32 (rxPackets (snd i)) = 0%Z) ->
  class_totalRx c (fold_left (loop_body FindFlow) stats acc) = 0.
Proof.
  induction stats as [| i stats IH]; intros acc Hacc Hidle; simpl.
  - exact Hacc.
  - apply IH.
    + pose proof (Hidle i (or_introl eq_refl)) as Hi.
      unfold loop_body.
      destruct (Z.eqb_spec (sourcePort (FindFlow (fst i))) 9) as [E9 | N9];
        [| destruct (Z.eqb_spec (sourcePort (FindFlow (fst i))) 10)
             as [E10 | N10] ];
        destruct c; simpl in *; try exact Hacc;
        unfold uint32_to_double; rewrite Hi by assumption;
        rewrite Hacc; reflexivity.
    + intros i' Hi'. apply Hidle. right. exact Hi'.
Qed.

(** A class none of whose flows has received a packet has the received
    total zero. *)
Lemma idle_class_rx_zero c stats :
  (forall i, In i stats ->
     sourcePort (FindFlow (fst i)) = class_port c ->
     to_uint32 (rxPackets (snd i)) = 0%Z) ->
  class_totalRx c (accumulate FindFlow stats) = 0.
Proof.
  intros Hidle. unfold accumulate. apply fold_rx_zero.
  - destruct c; reflexivity.
  - exact Hidle.
Qed.

End Loop.

(** *** The two report blocks, by the guard on the received total *)

Lemma report_VoIP_absent T :
  (0 <? totalRxVoIP T) = false -> report_VoIP T = ([], []).
Proof. intros H. unfold report_VoIP. rewrite H. reflexivity. Qed.

Lemma report_FTP_absent T :
  (0 <? totalRxFTP T) = false -> report_FTP T = ([], []).
Proof. intros H. unfold report_FTP. rewrite H. reflexivity. Qed.

Lemma report_VoIP_titles T b :
  In b (fst (report_VoIP T)) -> title b = title_VoIP.
Proof.
  unfold report_VoIP. destruct (0 <? totalRxVoIP T); simpl.
  - intros [<- | []]. reflexivity.
  - intros [].
Qed.

Lemma report_FTP_titles T b :
  In b (fst (report_FTP T)) -> title b = title_FTP.
Proof.
  unfold report_FTP. destruct (0 <? totalRxFTP T); simpl.
  - intros [<- | []]. reflexivity.
  - intros [].
Qed.

Lemma report_VoIP_divisions T d :
  In d (snd (report_VoIP T)) -> div_class d = VoIP.
Proof.
  unfold report_VoIP. destruct (0 <? totalRxVoIP T); simpl.
  - intros [<- | [<- | [<- | []]]]; reflexivity.
  - intros [].
Qed.

Lemma report_FTP_divisions T d :
  In d (snd (report_FTP T)) -> div_class d = FTP.
Proof.
  unfold report_FTP. destruct (0 <? totalRxFTP T); simpl.
  - intros [<- | [<- | [<- | []]]]; reflexivity.
  - intros [].
Qed.

(** [CheckMetrics] prints the VoIP block, then the FTP block. *)
Lemma CheckMetrics_unfold FindFlow stats :
  CheckMetrics FindFlow stats =
  ({| banner := "--- Q3: QoS Performance Verification ---";
      blocks := fst (report_VoIP (accumulate FindFlow stats))
                ++ fst (report_FTP (accumulate FindFlow stats)) |},
   snd (report_VoIP (accumulate FindFlow stats))
   ++ snd (report_FTP (accumulate FindFlow stats))).
Proof.
  unfold CheckMetrics, bind, ret.
  destruct (report_VoIP (accumulate FindFlow stats)) as [bv tv].
  destruct (report_FTP (accumulate FindFlow stats)) as [bf tf].
  simpl. rewrite app_nil_r. reflexivity.
Qed.

(** A class whose received total is not above zero has no block and no
    division. *)
Lemma not_received_omitted FindFlow stats c :
  (0 <? class_totalRx c (accumulate FindFlow stats)) = false ->
  find_block (class_title c) (fst (CheckMetrics FindFlow stats)) = None
  /\ divisions_of c (snd (CheckMetrics FindFlow stats)) = [].
Proof.
  intros Hrx. rewrite CheckMetrics_unfold. unfold find_block, divisions_of.
  simpl fst. simpl snd. simpl blocks.
  destruct c; simpl in Hrx.
  - rewrite (report_VoIP_absent _ Hrx). simpl. split.
    + apply find_all_false. intros b Hb.
      rewrite (report_FTP_titles _ _ Hb). reflexivity.
    + apply filter_all_false. intros d Hd.
      rewrite (report_FTP_divisions _ _ Hd). reflexivity.
  - rewrite (report_FTP_absent _ Hrx). simpl. rewrite !app_nil_r. split.
    + apply find_all_false. intros b Hb.
      rewrite (report_VoIP_titles _ _ Hb). reflexivity.
    + apply filter_all_false. intros d Hd.
      rewrite (report_VoIP_divisions _ _ Hd). reflexivity.
Qed.

(** A class whose received total is above zero is reported with the
    quotient of the source as its loss. *)
Lemma received_loss_printed FindFlow stats c :
  (0 <? class_totalRx c (accumulate FindFlow stats)) = true ->
  printed_metric (class_title c) label_loss
    (fst (CheckMetrics FindFlow stats)) =
  Some (spec_lossPercent (class_totalTx c (accumulate FindFlow stats))
          (class_totalRx c (accumulate FindFlow stats))).
Proof.
  intros Hrx. rewrite CheckMetrics_unfold.
  unfold printed_metric, find_block, report_VoIP, report_FTP.
  destruct c; simpl in Hrx; rewrite Hrx.
  - reflexivity.
  - destruct (0 <? totalRxVoIP (accumulate FindFlow stats)); reflexivity.
Qed.

(** C2, as amended.  For a class whose transmitted total is zero the only
    guard is the one on the received total.  If the received total is
    zero too, the class has no block in the report and no division at
    all is evaluated for it.  If the received total is above zero, the
    class is reported and its loss division is evaluated with the zero
    transmitted total as divisor. *)
Theorem zero_tx_guarded_by_rx_only (FindFlow : FlowId -> FiveTuple)
    (stats : list (FlowId * FlowStats)) (c : MeasuredClass) :
  (class_totalTx c (accumulate FindFlow stats) =? 0) = true ->
  ((class_totalRx c (accumulate FindFlow stats) =? 0) = true ->
   find_block (class_title c) (fst (CheckMetrics FindFlow stats)) = None
   /\ divisions_of c (snd (CheckMetrics FindFlow stats)) = [])
  /\ ((0 <? class_totalRx c (accumulate FindFlow stats)) = true ->
      (exists b,
         find_block (class_title c) (fst (CheckMetrics FindFlow stats))
         = Some b)
      /\ existsb (zero_loss_division c) (snd (CheckMetrics FindFlow stats))
         = true).
Proof.
  intros Htx. split.
  - intros Hrx. apply not_received_omitted.
    apply eqb_zero_not_positive. exact Hrx.
  - intros Hrx. rewrite CheckMetrics_unfold.
    unfold find_block, zero_loss_division, report_VoIP, report_FTP.
    destruct c; simpl in Htx, Hrx; rewrite Hrx.
    + split.
      * eexists. reflexivity.
      * simpl. rewrite Htx. reflexivity.
    + destruct (0 <? totalRxVoIP (accumulate FindFlow stats)).
      * split; [eexists; reflexivity |]. simpl. rewrite Htx. reflexivity.
      * split; [eexists; reflexivity |]. simpl. rewrite Htx. reflexivity.
Qed.

(** C3, as amended.  A class whose received total exceeds its transmitted
    total is reported, and its loss is the quotient
    (transmitted - received) / transmitted * 100 of the doubles, as it
    comes out, with no clamping. *)
Theorem reordered_loss_unclamped (FindFlow : FlowId -> FiveTuple)
    (stats : list (FlowId * FlowStats)) (c : MeasuredClass) :
  (class_totalTx c (accumulate FindFlow stats)
   <? class_totalRx c (accumulate FindFlow stats)) = true ->
  printed_metric (class_title c) label_loss
    (fst (CheckMetrics FindFlow stats)) =
  Some (spec_lossPercent (class_totalTx c (accumulate FindFlow stats))
          (class_totalRx c (accumulate FindFlow stats))).
Proof.
  intros Hlt. apply received_loss_printed.
  apply (ltb_unsigned_positive (class_totalTx c (accumulate FindFlow stats))).
  - apply accumulate_tx_unsigned.
  - exact Hlt.
Qed.

(** C4.  A class whose received total is zero has no block in the report,
    so no loss figure is printed for it, and no division is evaluated for
    it, whatever its transmitted total (zero included). *)
Theorem zero_rx_omitted (FindFlow : FlowId -> FiveTuple)
    (stats : list (FlowId * FlowStats)) (c : MeasuredClass) :
  (class_totalRx c (accumulate FindFlow stats) =? 0) = true ->
  find_block (class_title c) (fst (CheckMetrics FindFlow stats)) = None
  /\ printed_metric (class_title c) label_loss
       (fst (CheckMetrics FindFlow stats)) = None
  /\ divisions_of c (snd (CheckMetrics FindFlow stats)) = [].
Proof.
  intros Hrx.
  destruct (not_received_omitted FindFlow stats c
              (eqb_zero_not_positive _ Hrx)) as [Hb Hd].
  unfold printed_metric. rewrite Hb. auto.
Qed.


(** C7.  A flow whose source port is neither 9 nor 10 leaves all seven
    accumulators as they are, wherever it sits in the flow map, so the
    report and the divisions are those of the map without it. *)
Theorem unknown_port_excluded (FindFlow : FlowId -> FiveTuple)
    (before after : list (FlowId * FlowStats)) (i : FlowId * FlowStats) :
  sourcePort (FindFlow (fst i)) <> 9%Z ->
  sourcePort (FindFlow (fst i)) <> 10%Z ->
  accumulate FindFlow (before ++ i :: after) =
    accumulate FindFlow (before ++ after)
  /\ CheckMetrics FindFlow (before ++ i :: after) =
     CheckMetrics FindFlow (before ++ after).
Proof.
  intros H9 H10.
  assert (Hacc : accumulate FindFlow (before ++ i :: after) =
                 accumulate FindFlow (before ++ after)).
  { unfold accumulate. rewrite !fold_left_app. simpl.
    rewrite (loop_body_unknown FindFlow _ i H9 H10). reflexivity. }
  split; [exact Hacc |].
  unfold CheckMetrics. rewrite Hacc. reflexivity.
Qed.

(** C10.  Every block of a report is either the VoIP block, whose lines
    are loss, latency and jitter and which has no throughput line, or the
    FTP block, whose lines are loss, latency and throughput and which has
    no jitter line; and the jitter sums of the flows that are not
    port-9 flows are never read: overwriting them changes nothing. *)
Theorem summaries_have_fixed_shapes (FindFlow : FlowId -> FiveTuple)
    (stats : list (FlowId * FlowStats)) :
  (forall b, In b (blocks (fst (CheckMetrics FindFlow stats))) ->
     (title b = title_VoIP
      /\ map label (lines b) = [label_loss; label_latency; label_jitter]
      /\ find_metric label_throughput b = None)
     \/ (title b = title_FTP
         /\ map label (lines b) =
            [label_loss; label_latency; label_throughput]
         /\ find_metric label_jitter b = None))
  /\ (forall j : FlowId -> Time,
       CheckMetrics FindFlow (map (rejitter FindFlow j) stats) =
       CheckMetrics FindFlow stats).
Proof.
  split.
  - intros b Hb. rewrite CheckMetrics_unfold in Hb. simpl in Hb.
    apply in_app_or in Hb. destruct Hb as [Hb | Hb].
    + left. unfold report_VoIP in Hb.
      destruct (0 <? totalRxVoIP (accumulate FindFlow stats)); simpl in Hb.
      * destruct Hb as [<- | []]. repeat split.
      * destruct Hb.
    + right. unfold report_FTP in Hb.
      destruct (0 <? totalRxFTP (accumulate FindFlow stats)); simpl in Hb.
      * destruct Hb as [<- | []]. repeat split.
      * destruct Hb.
  - intros j. unfold CheckMetrics, accumulate.
    rewrite fold_rejitter. reflexivity.
Qed.

(** *** The theorems on the sample flow maps *)

Example rx_without_tx_report :
  CheckMetrics port_is_id stats_rx_without_tx =
  ({| banner := "--- Q3: QoS Performance Verification ---";
      blocks :=
        [ {| title := title_VoIP;
             lines :=
               [ {| label := label_loss; value := neg_infinity;
                    trailer := " % [Expected: Near 0%]" |};
                 {| label := label_latency; value := 50;
                    trailer := " ms [Expected: Low]" |};
                 {| label := label_jitter; value := 12.5;
                    trailer := " ms [Expected: Low]" |} ] |} ] |},
   [ {| div_class := VoIP; div_target := "lossVoIP";
        dividend := -5; divisor := 0 |};
     {| div_class := VoIP; div_target := "avgDelayVoIP";
        dividend := 0.25; divisor := 5 |};
     {| div_class := VoIP; div_target := "avgJitterVoIP";
        dividend := 0.0625; divisor := 5 |} ]).
Proof. vm_compute. reflexivity. Qed.

Example reordered_loss :
  printed_metric title_VoIP label_loss
    (fst (CheckMetrics port_is_id stats_reordered)) = Some (-20).
Proof. vm_compute. reflexivity. Qed.

Example idle_report :
  CheckMetrics port_is_id stats_idle =
  ({| banner := "--- Q3: QoS Performance Verification ---"; blocks := [] |},
   []).
Proof. vm_compute. reflexivity. Qed.

Example mixed_totals :
  accumulate port_is_id stats_mixed =
  {| totalTxVoIP := 100; totalRxVoIP := 100; totalDelayVoIP := 0.5;
     totalJitterVoIP := 0.125;
     totalTxFTP := 4000; totalRxFTP := 3000; totalDelayFTP := 6 |}.
Proof. vm_compute. reflexivity. Qed.

Example mixed_report :
  map (fun b => (title b, map (fun m => (label m, value m)) (lines b)))
    (blocks (fst (CheckMetrics port_is_id stats_mixed))) =
  [ (title_VoIP,
     [ (label_loss, 0); (label_latency, 5); (label_jitter, 1.25) ]);
    (title_FTP,
     [ (label_loss, 25); (label_latency, 2); (label_throughput, 3) ]) ].
Proof. vm_compute. reflexivity. Qed.

Example window_is_twelve_seconds : observationWindowSeconds = 12.
Proof. vm_compute. reflexivity. Qed.

(** C2, as stated, fails: a port-9 flow with five packets received and
    none transmitted is reported, and its loss division is evaluated
    with the divisor zero. *)
Lemma zero_tx_guard_fails :
  ~ zero_tx_guard port_is_id stats_rx_without_tx VoIP.
Proof.
  intros H. destruct (H eq_refl) as [Hblock _].
  vm_compute in Hblock. discriminate Hblock.
Qed.

Lemma zero_tx_guarded_by_rx_only_witness :
  ((class_totalTx VoIP (accumulate port_is_id stats_idle) =? 0) = true
   /\ (class_totalRx VoIP (accumulate port_is_id stats_idle) =? 0) = true
   /\ find_block (class_title VoIP)
        (fst (CheckMetrics port_is_id stats_idle)) = None
   /\ divisions_of VoIP (snd (CheckMetrics port_is_id stats_idle)) = [])
  /\ ((class_totalTx VoIP (accumulate port_is_id stats_rx_without_tx) =? 0)
      = true
      /\ (0 <? class_totalRx VoIP
                 (accumulate port_is_id stats_rx_without_tx)) = true
      /\ (exists b,
            find_block (class_title VoIP)
              (fst (CheckMetrics port_is_id stats_rx_without_tx)) = Some b)
      /\ existsb (zero_loss_division VoIP)
           (snd (CheckMetrics port_is_id stats_rx_without_tx)) = true).
Proof.
  split.
  - split; [vm_compute; reflexivity |]. split; [vm_compute; reflexivity |].
    apply (proj1 (zero_tx_guarded_by_rx_only port_is_id stats_idle VoIP
                    eq_refl)).
    vm_compute. reflexivity.
  - split; [vm_compute; reflexivity |]. split; [vm_compute; reflexivity |].
    apply (proj2 (zero_tx_guarded_by_rx_only port_is_id stats_rx_without_tx
                    VoIP eq_refl)).
    vm_compute. reflexivity.
Defined.

(** C3, as stated, fails: with 50 packets transmitted and 60 received the
    printed loss is -20, not zero. *)
Lemma loss_clamped_fails :
  ~ loss_clamped port_is_id stats_reordered VoIP.
Proof.
  intros H. destruct (H eq_refl) as [v [Hv Hzero]].
  change (class_title VoIP) with title_VoIP in Hv.
  rewrite reordered_loss in Hv. injection Hv as <-.
  vm_compute in Hzero. discriminate Hzero.
Qed.

Lemma reordered_loss_unclamped_witness :
  (class_totalTx VoIP (accumulate port_is_id stats_reordered)
   <? class_totalRx VoIP (accumulate port_is_id stats_reordered)) = true
  /\ printed_metric (class_title VoIP) label_loss
       (fst (CheckMetrics port_is_id stats_reordered)) = Some (-20).
Proof.
  split; [vm_compute; reflexivity |].
  rewrite (reordered_loss_unclamped port_is_id stats_reordered VoIP)
    by (vm_compute; reflexivity).
  vm_compute. reflexivity.
Defined.

Lemma zero_rx_omitted_witness :
  (class_totalRx FTP (accumulate port_is_id stats_idle) =? 0) = true
  /\ find_block (class_title FTP)
       (fst (CheckMetrics port_is_id stats_idle)) = None
  /\ printed_metric (class_title FTP) label_loss
       (fst (CheckMetrics port_is_id stats_idle)) = None
  /\ divisions_of FTP (snd (CheckMetrics port_is_id stats_idle)) = [].
Proof.
  split; [vm_compute; reflexivity |].
  apply (zero_rx_omitted port_is_id stats_idle FTP).
  vm_compute. reflexivity.
Defined.


Lemma unknown_port_excluded_witness :
  sourcePort (port_is_id 53%Z) <> 9%Z
  /\ sourcePort (port_is_id 53%Z) <> 10%Z
  /\ accumulate port_is_id stats_mixed =
     accumulate port_is_id (firstn 2 stats_mixed)
  /\ CheckMetrics port_is_id stats_mixed =
     CheckMetrics port_is_id (firstn 2 stats_mixed).
Proof.
  split; [discriminate |]. split; [discriminate |].
  apply (unknown_port_excluded port_is_id (firstn 2 stats_mixed) []
           (53%Z, flow 7 7 1 1));
    discriminate.
Defined.

Lemma summaries_have_fixed_shapes_witness :
  In ftp_block_mixed (blocks (fst (CheckMetrics port_is_id stats_mixed)))
  /\ CheckMetrics port_is_id
       (map (rejitter port_is_id (fun _ => {| GetSeconds := 99 |}))
          stats_mixed) =
     CheckMetrics port_is_id stats_mixed.
Proof.
  split.
  - vm_compute. right. left. reflexivity.
  - apply (proj2 (summaries_have_fixed_shapes port_is_id stats_mixed)).
Defined.

End QoSProofs.

(** ** The engine's other methods and its faults *)

Module PbrMore.
Import Pbr PbrLifecycle.

Section Faults.
Context {fw : Framework}.

(** X1.  An engine whose [m_ipv4] is null, as the constructor leaves it,
    dereferences the null pointer in [RouteOutput] whatever the marking,
    and in [RouteInput]. *)
Theorem unattached_engine_faults_always (self : PbrRouting)
    (unattached : m_ipv4 self = None)
    (p : Ptr Packet) (header : Ipv4Header) (dev : Ptr NetDevice)
    (sockerr : SocketErrno)
    (ucb : UnicastForwardCallback) (mcb : MulticastForwardCallback)
    (lcb : LocalDeliverCallback) (ecb : ErrorCallback) (w : World) :
  RouteOutput self p header dev sockerr w = NullDereference
  /\ RouteInput self p header dev ucb mcb lcb ecb w = NullDereference.
Proof.
  unfold RouteOutput, RouteInput. rewrite unattached. simpl.
  split; [| reflexivity].
  destruct (to_uint8 (GetDscp header) =? DSCP_VIDEO_EF);
    [| destruct (to_uint8 (GetDscp header) =? DSCP_DATA_BE)];
    reflexivity.
Qed.

(** X2.  On an [Ipv4] object with no routing protocol installed, the
    fall-through of [RouteOutput] (a marking other than 0x2e and 0x00)
    and every [RouteInput] dereference the null protocol pointer. *)
Theorem missing_provider_faults (self : PbrRouting) (ipv4 : Ipv4)
    (attached : m_ipv4 self = Some ipv4)
    (missing : GetRoutingProtocol ipv4 = None)
    (p : Ptr Packet) (header : Ipv4Header) (dev : Ptr NetDevice)
    (sockerr : SocketErrno)
    (ucb : UnicastForwardCallback) (mcb : MulticastForwardCallback)
    (lcb : LocalDeliverCallback) (ecb : ErrorCallback) (w : World) :
  (to_uint8 (GetDscp header) <> 0x2e ->
   to_uint8 (GetDscp header) <> 0x00 ->
   RouteOutput self p header dev sockerr w = NullDereference)
  /\ RouteInput self p header dev ucb mcb lcb ecb w = NullDereference.
Proof.
  split.
  - intros Hv Hb.
    rewrite (PbrProofs.RouteOutput_other self ipv4 attached) by assumption.
    rewrite missing. reflexivity.
  - unfold RouteInput. rewrite attached. simpl. rewrite missing. reflexivity.
Qed.

(** X3.  A policy decision never consults the routing protocol installed
    on the [Ipv4] object: with any other protocol installed, or none, a
    packet marked 0x2e or 0x00 gets the same route, socket error and
    world. *)
Theorem policy_route_ignores_provider (self : PbrRouting) (ipv4 : Ipv4)
    (attached : m_ipv4 self = Some ipv4)
    (other : Ptr Ipv4RoutingProtocol)
    (p : Ptr Packet) (header : Ipv4Header) (oif : Ptr NetDevice)
    (sockerr : SocketErrno) (w : World) :
  to_uint8 (GetDscp header) = 0x2e \/ to_uint8 (GetDscp header) = 0x00 ->
  RouteOutput (SetIpv4 self (Some (with_provider ipv4 other)))
    p header oif sockerr w =
  RouteOutput self p header oif sockerr w.
Proof.
  intros [Hd | Hd].
  - rewrite (PbrProofs.RouteOutput_video self ipv4 attached) by exact Hd.
    rewrite (PbrProofs.RouteOutput_video
               (SetIpv4 self (Some (with_provider ipv4 other)))
               (with_provider ipv4 other) eq_refl) by exact Hd.
    reflexivity.
  - rewrite (PbrProofs.RouteOutput_data self ipv4 attached) by exact Hd.
    rewrite (PbrProofs.RouteOutput_data
               (SetIpv4 self (Some (with_provider ipv4 other)))
               (with_provider ipv4 other) eq_refl) by exact Hd.
    reflexivity.
Qed.

Lemma invoke_all_from (calls : list MethodCall) : forall self,
  invoke_all self calls =
  SetIpv4 self (last_SetIpv4 (m_ipv4 self) calls).
Proof.
  induction calls as [| c calls IH]; intros self.
  - destruct self. reflexivity.
  - unfold invoke_all, last_SetIpv4. simpl.
    fold (invoke_all (invoke self c) calls). rewrite IH.
    destruct c; reflexivity.
Qed.

(** X4.  Whatever sequence of [SetIpv4] and interface or address
    notifications an engine receives, its next hops and interface
    indices stay those the constructor stored (the interface indices as
    [uint32_t]), and its [Ipv4] pointer is the argument of the last
    [SetIpv4], so every routing decision after the sequence is the one
    that last [SetIpv4] alone would give: a notification that a policy
    interface went down changes nothing. *)
Theorem policy_survives_notifications
    (videoNextHop dataNextHop : Ipv4Address) (videoIfIndex dataIfIndex : Z)
    (calls : list MethodCall) :
  let self :=
    invoke_all
      (PbrRouting_new videoNextHop dataNextHop videoIfIndex dataIfIndex)
      calls in
  m_videoNextHop self = videoNextHop
  /\ m_dataNextHop self = dataNextHop
  /\ m_videoIfIndex self = to_uint32 videoIfIndex
  /\ m_dataIfIndex self = to_uint32 dataIfIndex
  /\ m_ipv4 self = last_SetIpv4 None calls
  /\ (forall p header oif sockerr w,
        RouteOutput self p header oif sockerr w =
        RouteOutput
          (SetIpv4
             (PbrRouting_new videoNextHop dataNextHop videoIfIndex
                dataIfIndex)
             (last_SetIpv4 None calls))
          p header oif sockerr w).
Proof.
  intros self. unfold self. rewrite invoke_all_from. simpl.
  repeat split.
Qed.

End Faults.

Section OnTheRouter.
Import PbrExample.

Lemma unattached_engine_faults_always_witness :
  m_ipv4 (PbrRouting_new (ip 10 0 2 2) (ip 10 0 3 2) 2 3) = None
  /\ RouteOutput (PbrRouting_new (ip 10 0 2 2) (ip 10 0 3 2) 2 3)
       packet (header_to 0x00 far) None ERROR_NOTERROR [] = NullDereference
  /\ RouteInput (PbrRouting_new (ip 10 0 2 2) (ip 10 0 3 2) 2 3)
       packet (header_to 0x00 far) None 1%nat 2%nat 3%nat 4%nat []
     = NullDereference.
Proof.
  split; [reflexivity |].
  apply (unattached_engine_faults_always
           (PbrRouting_new (ip 10 0 2 2) (ip 10 0 3 2) 2 3) eq_refl).
Defined.

Lemma missing_provider_faults_witness :
  m_ipv4 (SetIpv4 pbr (Some (with_provider router_ipv4 None)))
  = Some (with_provider router_ipv4 None)
  /\ GetRoutingProtocol (with_provider router_ipv4 None) = None
  /\ to_uint8 (GetDscp (header_to 0x28 far)) <> 0x2e
  /\ to_uint8 (GetDscp (header_to 0x28 far)) <> 0x00
  /\ RouteOutput (SetIpv4 pbr (Some (with_provider router_ipv4 None)))
       packet (header_to 0x28 far) None ERROR_NOTERROR [] = NullDereference.
Proof.
  split; [reflexivity |]. split; [reflexivity |].
  split; [discriminate |]. split; [discriminate |].
  apply (proj1 (missing_provider_faults
                  (SetIpv4 pbr (Some (with_provider router_ipv4 None)))
                  (with_provider router_ipv4 None) eq_refl eq_refl
                  packet (header_to 0x28 far) None ERROR_NOTERROR
                  1%nat 2%nat 3%nat 4%nat []));
    discriminate.
Defined.

Lemma policy_route_ignores_provider_witness :
  m_ipv4 pbr = Some router_ipv4
  /\ to_uint8 (GetDscp (header_to 0xB8 (ip 10 0 1 1))) = 0x2e
  /\ RouteOutput (SetIpv4 pbr (Some (with_provider router_ipv4 None)))
       packet (header_to 0xB8 (ip 10 0 1 1)) None ERROR_NOTERROR [] =
     RouteOutput pbr packet (header_to 0xB8 (ip 10 0 1 1)) None
       ERROR_NOTERROR [].
Proof.
  split; [reflexivity |]. split; [reflexivity |].
  apply (policy_route_ignores_provider pbr router_ipv4 eq_refl None).
  left. reflexivity.
Defined.

End OnTheRouter.
End PbrMore.

(** ** Counters, signs and the shape of the report *)

Module QoSMore.
Import QoS QoSCounts.
Local Open Scope float_scope.

(** *** Rounding a positive mantissa gives a positive double *)

Lemma shr_1_digits mrs q :
  shr_m mrs = Zpos q -> (1 < Zpos (digits2_pos q))%Z ->
  exists q', shr_m (shr_1 mrs) = Zpos q'
             /\ Zpos (digits2_pos q') = (Zpos (digits2_pos q) - 1)%Z.
Proof.
  destruct mrs as [m r s]. cbn [shr_m]. intros -> Hd.
  destruct q as [q | q |]; cbn [shr_1 shr_m digits2_pos] in *.
  - exists q. split; [reflexivity | lia].
  - exists q. split; [reflexivity | lia].
  - lia.
Qed.

Lemma iter_shr_1_digits n : forall mrs q,
  shr_m mrs = Zpos q -> (Zpos n < Zpos (digits2_pos q))%Z ->
  exists q', shr_m (iter_pos shr_1 n mrs) = Zpos q'
             /\ Zpos (digits2_pos q') = (Zpos (digits2_pos q) - Zpos n)%Z.
Proof.
  induction n as [n IH | n IH |]; intros mrs q Hm Hd; cbn [iter_pos].
  - destruct (shr_1_digits mrs q Hm) as (q1 & H1 & D1); [lia |].
    destruct (IH _ q1 H1) as (q2 & H2 & D2); [lia |].
    destruct (IH _ q2 H2) as (q3 & H3 & D3); [lia |].
    exists q3. split; [exact H3 | lia].
  - destruct (IH _ q Hm) as (q1 & H1 & D1); [lia |].
    destruct (IH _ q1 H1) as (q2 & H2 & D2); [lia |].
    exists q2. split; [exact H2 | lia].
  - apply shr_1_digits; assumption.
Qed.

Lemma shr_record_of_loc_m m l : shr_m (shr_record_of_loc m l) = m.
Proof. destruct l as [| []]; reflexivity. Qed.

Lemma shr_fexp_positive q e l :
  (SpecFloat.emin prec emax <= e)%Z ->
  exists q',
    shr_m (fst (shr_fexp prec emax (Zpos q) e l)) = Zpos q'
    /\ (SpecFloat.emin prec emax <= snd (shr_fexp prec emax (Zpos q) e l))%Z.
Proof.
  intros He. unfold shr_fexp, shr.
  destruct (fexp prec emax (Zdigits2 (Zpos q) + e) - e)%Z as [| n | n] eqn:En;
    simpl fst; simpl snd.
  - exists q. split; [apply shr_record_of_loc_m | exact He].
  - destruct (iter_shr_1_digits n (shr_record_of_loc (Zpos q) l) q)
      as (q' & Hq' & _).
    + apply shr_record_of_loc_m.
    + revert En He. unfold fexp, SpecFloat.emin, prec, emax. simpl Zdigits2.
      lia.
    + exists q'. split; [exact Hq' | lia].
  - exists q. split; [apply shr_record_of_loc_m | exact He].
Qed.

Lemma round_nearest_even_positive q l :
  exists q', round_nearest_even (Zpos q) l = Zpos q'.
Proof.
  destruct l as [| []]; simpl; eauto.
  destruct q; simpl; eauto.
Qed.

Lemma binary_round_aux_positive q e l :
  (SpecFloat.emin prec emax <= e)%Z ->
  positive_spec (binary_round_aux prec emax false (Zpos q) e l) = true.
Proof.
  intros He. unfold binary_round_aux.
  destruct (shr_fexp_positive q e l He) as (q1 & H1 & He1).
  destruct (shr_fexp prec emax (Zpos q) e l) as [mrs1 e1].
  simpl in H1, He1. rewrite H1.
  destruct (round_nearest_even_positive q1 (loc_of_shr_record mrs1))
    as [q2 H2].
  rewrite H2.
  destruct (shr_fexp_positive q2 e1 loc_Exact He1) as (q3 & H3 & _).
  destruct (shr_fexp prec emax (Zpos q2) e1 loc_Exact) as [mrs2 e2].
  simpl in H3. rewrite H3.
  destruct (Z.leb e2 (emax - prec)); reflexivity.
Qed.

Lemma binary_round_positive m e :
  (SpecFloat.emin prec emax <= e)%Z ->
  positive_spec (binary_round prec emax false m e) = true.
Proof.
  intros He. unfold binary_round.
  destruct (shl_align m e (fexp prec emax (Zpos (digits2_pos m) + e)))
    as [mz ez] eqn:Hs.
  apply binary_round_aux_positive.
  unfold shl_align in Hs.
  destruct (fexp prec emax (Zpos (digits2_pos m) + e) - e)%Z eqn:Ed;
    inversion Hs; subst; try exact He.
  unfold fexp. apply Z.le_max_r.
Qed.

Lemma finite_exponent_bound x s m e :
  Prim2SF x = S754_finite s m e -> (SpecFloat.emin prec emax <= e)%Z.
Proof.
  intros Hx. pose proof (Prim2SF_valid x) as Hv. rewrite Hx in Hv.
  unfold SpecFloat.valid_binary, bounded, canonical_mantissa in Hv.
  apply andb_prop in Hv. destruct Hv as [Hc _].
  apply Z.eqb_eq in Hc. rewrite <- Hc. unfold fexp. apply Z.le_max_r.
Qed.

(** *** Signs of converted counters and of their sums *)

Lemma positive_nonneg_spec z : positive_spec z = true -> nonneg_spec z = true.
Proof. destruct z as [[] | [] | | [] m e]; simpl; congruence. Qed.

Lemma uint32_to_double_zero n :
  to_uint32 n = 0%Z -> uint32_to_double n = 0.
Proof. unfold uint32_to_double. intros ->. reflexivity. Qed.

Lemma uint32_to_double_positive n :
  to_uint32 n <> 0%Z -> positive_double (uint32_to_double n) = true.
Proof.
  intros Hn. unfold positive_double, uint32_to_double.
  rewrite of_uint63_spec.
  assert (Hphi : Uint63Axioms.to_Z (Uint63.of_Z (to_uint32 n)) = to_uint32 n).
  { rewrite Uint63.of_Z_spec. apply Z.mod_small.
    unfold to_uint32. pose proof (Z.mod_pos_bound n 4294967296).
    change Uint63.wB with 9223372036854775808%Z. lia. }
  rewrite Hphi.
  pose proof (Z.mod_pos_bound n 4294967296) as Hr. fold (to_uint32 n) in Hr.
  destruct (to_uint32 n) as [| k | k]; [congruence | | lia].
  cbn [binary_normalize]. apply binary_round_positive.
  vm_compute. discriminate.
Qed.

Lemma uint32_to_double_signs n :
  nonneg_double (uint32_to_double n) = true
  /\ positive_double (uint32_to_double n) = negb (to_uint32 n =? 0)%Z.
Proof.
  destruct (Z.eqb_spec (to_uint32 n) 0) as [E | N].
  - rewrite (uint32_to_double_zero n E). split; reflexivity.
  - pose proof (uint32_to_double_positive n N) as Hp. split.
    + apply positive_nonneg_spec. exact Hp.
    + exact Hp.
Qed.

Lemma add_signs x y :
  nonneg_double x = true -> nonneg_double y = true ->
  nonneg_double (x + y) = true
  /\ positive_double (x + y) = positive_double x || positive_double y.
Proof.
  unfold nonneg_double, positive_double. rewrite add_spec. unfold SF64add.
  destruct (Prim2SF x) as [sx | sx | | sx mx ex] eqn:Hx;
    destruct (Prim2SF y) as [sy | sy | | sy my ey] eqn:Hy;
    try destruct sx; try destruct sy;
    intros Hnx Hny; try discriminate Hnx; try discriminate Hny;
    try (split; reflexivity).
  cbn [SFadd cond_Zopp].
  match goal with
  | |- context [binary_normalize _ _ (Zpos ?a + Zpos ?b)%Z _ _] =>
      change (Zpos a + Zpos b)%Z with (Zpos (a + b))
  end.
  cbn [binary_normalize].
  assert (Hp : positive_spec
                 (binary_round prec emax false
                    (fst (shl_align mx ex (Z.min ex ey))
                     + fst (shl_align my ey (Z.min ex ey)))
                    (Z.min ex ey)) = true).
  { apply binary_round_positive.
    pose proof (finite_exponent_bound x _ _ _ Hx).
    pose proof (finite_exponent_bound y _ _ _ Hy).
    lia. }
  split; [apply positive_nonneg_spec; exact Hp | exact Hp].
Qed.

Lemma ltb_zero_positive y :
  nonneg_double y = true -> (0 <? y) = positive_double y.
Proof.
  unfold nonneg_double, positive_double. rewrite ltb_spec.
  change (Prim2SF 0) with (S754_zero false). unfold SFltb.
  destruct (Prim2SF y) as [[] | [] | | [] m e]; simpl;
    intros H; try discriminate H; reflexivity.
Qed.

Lemma nonneg_not_positive_is_zero y :
  nonneg_double y = true -> positive_double y = false -> y = 0.
Proof.
  unfold nonneg_double, positive_double. intros Hn Hp.
  apply Prim2SF_inj. change (Prim2SF 0) with (S754_zero false).
  destruct (Prim2SF y) as [[] | [] | | [] m e]; simpl in *;
    try discriminate; reflexivity.
Qed.

Lemma positive_not_zero y : positive_double y = true -> (y =? 0) = false.
Proof.
  unfold positive_double. rewrite eqb_spec.
  change (Prim2SF 0) with (S754_zero false). unfold SFeqb.
  destruct (Prim2SF y) as [[] | [] | | [] m e]; simpl;
    intros H; try discriminate H; reflexivity.
Qed.

(** *** A packet total and the counters it sums *)

Section Counter.
Variable FindFlow : FlowId -> FiveTuple.
Variable c : MeasuredClass.
Variable total : Totals -> float.
Variable count : FlowStats -> Z.
Hypothesis body_adds : forall acc i,
  total (loop_body FindFlow acc i) =
  if is_flow_of FindFlow c i
  then total acc + uint32_to_double (count (snd i))
  else total acc.

Lemma fold_counter_signs stats : forall acc,
  nonneg_double (total acc) = true ->
  nonneg_double (total (fold_left (loop_body FindFlow) stats acc)) = true
  /\ positive_double (total (fold_left (loop_body FindFlow) stats acc)) =
     positive_double (total acc)
     || existsb (fun i => is_flow_of FindFlow c i
                          && negb (to_uint32 (count (snd i)) =? 0)%Z) stats.
Proof.
  induction stats as [| i stats IH]; intros acc Hacc; simpl.
  - split; [exact Hacc | rewrite orb_false_r; reflexivity].
  - destruct (uint32_to_double_signs (count (snd i))) as [Hn Hp].
    destruct (add_signs _ _ Hacc Hn) as [Hsn Hsp].
    specialize (IH (loop_body FindFlow acc i)).
    rewrite body_adds in IH.
    destruct (is_flow_of FindFlow c i); simpl.
    + destruct (IH Hsn) as [IHn IHp]. split; [exact IHn |].
      rewrite IHp, Hsp, Hp. rewrite orb_assoc. reflexivity.
    + apply IH. exact Hacc.
Qed.

End Counter.

Lemma loop_body_adds_rx FindFlow c acc i :
  class_totalRx c (loop_body FindFlow acc i) =
  if is_flow_of FindFlow c i
  then class_totalRx c acc + uint32_to_double (rxPackets (snd i))
  else class_totalRx c acc.
Proof.
  unfold loop_body, is_flow_of.
  destruct c; simpl;
    destruct (Z.eqb_spec (sourcePort (FindFlow (fst i))) 9) as [E9 | N9];
    destruct (Z.eqb_spec (sourcePort (FindFlow (fst i))) 10) as [E10 | N10];
    simpl; try reflexivity; congruence.
Qed.

Lemma loop_body_adds_tx FindFlow c acc i :
  class_totalTx c (loop_body FindFlow acc i) =
  if is_flow_of FindFlow c i
  then class_totalTx c acc + uint32_to_double (txPackets (snd i))
  else class_totalTx c acc.
Proof.
  unfold loop_body, is_flow_of.
  destruct c; simpl;
    destruct (Z.eqb_spec (sourcePort (FindFlow (fst i))) 9) as [E9 | N9];
    destruct (Z.eqb_spec (sourcePort (FindFlow (fst i))) 10) as [E10 | N10];
    simpl; try reflexivity; congruence.
Qed.

Lemma received_total_signs FindFlow c stats :
  nonneg_double (class_totalRx c (accumulate FindFlow stats)) = true
  /\ positive_double (class_totalRx c (accumulate FindFlow stats)) =
     class_received FindFlow c stats.
Proof.
  unfold accumulate, class_received.
  destruct (fold_counter_signs FindFlow c (class_totalRx c) rxPackets
              (loop_body_adds_rx FindFlow c) stats Totals_init) as [Hn Hp].
  - destruct c; reflexivity.
  - split; [exact Hn |]. rewrite Hp. destruct c; reflexivity.
Qed.

Lemma transmitted_total_signs FindFlow c stats :
  nonneg_double (class_totalTx c (accumulate FindFlow stats)) = true
  /\ positive_double (class_totalTx c (accumulate FindFlow stats)) =
     class_transmitted FindFlow c stats.
Proof.
  unfold accumulate, class_transmitted.
  destruct (fold_counter_signs FindFlow c (class_totalTx c) txPackets
              (loop_body_adds_tx FindFlow c) stats Totals_init) as [Hn Hp].
  - destruct c; reflexivity.
  - split; [exact Hn |]. rewrite Hp. destruct c; reflexivity.
Qed.

Lemma guard_is_received FindFlow c stats :
  (0 <? class_totalRx c (accumulate FindFlow stats)) =
  class_received FindFlow c stats.
Proof.
  destruct (received_total_signs FindFlow c stats) as [Hn Hp].
  rewrite (ltb_zero_positive _ Hn). exact Hp.
Qed.

(** *** Which classes a report lists *)

(** X5.  The report lists the VoIP block, then the FTP block, each one
    exactly when some flow of its class (source port 9, respectively 10)
    has a received counter other than zero; it has no other block. *)
Theorem report_lists_received_classes (FindFlow : FlowId -> FiveTuple)
    (stats : list (FlowId * FlowStats)) :
  map title (blocks (fst (CheckMetrics FindFlow stats))) =
  (if class_received FindFlow VoIP stats then [title_VoIP] else [])
  ++ (if class_received FindFlow FTP stats then [title_FTP] else []).
Proof.
  rewrite QoSProofs.CheckMetrics_unfold. simpl fst. simpl blocks.
  rewrite map_app. unfold report_VoIP, report_FTP.
  pose proof (guard_is_received FindFlow VoIP stats) as Hv.
  pose proof (guard_is_received FindFlow FTP stats) as Hf.
  simpl in Hv, Hf. rewrite Hv, Hf.
  destruct (class_received FindFlow VoIP stats);
    destruct (class_received FindFlow FTP stats); reflexivity.
Qed.

(** X6.  The transmitted and the received total of a class are never
    negative and never NaN, and each is above zero exactly when some
    flow of the class has the counter other than zero. *)
Theorem packet_totals_signs (FindFlow : FlowId -> FiveTuple)
    (stats : list (FlowId * FlowStats)) (c : MeasuredClass) :
  let T := accumulate FindFlow stats in
  nonneg_double (class_totalTx c T) = true
  /\ nonneg_double (class_totalRx c T) = true
  /\ (0 <? class_totalTx c T) = class_transmitted FindFlow c stats
  /\ (0 <? class_totalRx c T) = class_received FindFlow c stats.
Proof.
  intros T. unfold T.
  destruct (transmitted_total_signs FindFlow c stats) as [Htn Htp].
  destruct (received_total_signs FindFlow c stats) as [Hrn Hrp].
  repeat split; try assumption.
  - rewrite (ltb_zero_positive _ Htn). exact Htp.
  - rewrite (ltb_zero_positive _ Hrn). exact Hrp.
Qed.

(** *** Loss figures at the edges *)

Lemma loss_without_transmission rx :
  positive_double rx = true -> spec_lossPercent 0 rx = neg_infinity.
Proof.
  unfold positive_double, spec_lossPercent. intros Hrx.
  apply Prim2SF_inj. rewrite mul_spec, div_spec, sub_spec.
  change (Prim2SF 0) with (S754_zero false).
  change (Prim2SF neg_infinity) with (S754_infinity true).
  set (h := Prim2SF 100). vm_compute in h. subst h.
  destruct (Prim2SF rx) as [[] | [] | | [] m e]; simpl in Hrx;
    try discriminate Hrx; reflexivity.
Qed.

(** X7.  A class none of whose flows has transmitted a packet, while one
    of them has received one, is reported with a loss of minus
    infinity. *)
Theorem received_without_transmitted_loss (FindFlow : FlowId -> FiveTuple)
    (stats : list (FlowId * FlowStats)) (c : MeasuredClass) :
  class_transmitted FindFlow c stats = false ->
  class_received FindFlow c stats = true ->
  printed_metric (class_title c) label_loss
    (fst (CheckMetrics FindFlow stats)) = Some neg_infinity.
Proof.
  intros Htx Hrx.
  destruct (transmitted_total_signs FindFlow c stats) as [Htn Htp].
  destruct (received_total_signs FindFlow c stats) as [Hrn Hrp].
  rewrite QoSProofs.received_loss_printed
    by (rewrite guard_is_received; exact Hrx).
  rewrite (nonneg_not_positive_is_zero _ Htn) by congruence.
  rewrite loss_without_transmission by congruence.
  reflexivity.
Qed.

(** X8.  The only division that [CheckMetrics] can evaluate with a zero
    divisor is the loss division of a class none of whose flows has
    transmitted a packet: the latency, jitter and throughput divisions
    never have a zero divisor. *)
Theorem zero_divisor_only_in_loss (FindFlow : FlowId -> FiveTuple)
    (stats : list (FlowId * FlowStats)) (d : Division) :
  In d (snd (CheckMetrics FindFlow stats)) ->
  (divisor d =? 0) = true ->
  (div_target d = "lossVoIP"%string \/ div_target d = "lossFTP"%string)
  /\ class_transmitted FindFlow (div_class d) stats = false.
Proof.
  rewrite QoSProofs.CheckMetrics_unfold. simpl snd.
  intros Hd Hz. apply in_app_or in Hd.
  assert (Hloss : forall c,
            (class_totalTx c (accumulate FindFlow stats) =? 0) = true ->
            class_transmitted FindFlow c stats = false).
  { intros c Hc.
    destruct (transmitted_total_signs FindFlow c stats) as [_ Hp].
    rewrite <- Hp.
    destruct (positive_double (class_totalTx c (accumulate FindFlow stats)))
      eqn:Epos; [| reflexivity].
    rewrite (positive_not_zero _ Epos) in Hc. discriminate Hc. }
  assert (Hrx : forall c,
            (0 <? class_totalRx c (accumulate FindFlow stats)) = true ->
            (class_totalRx c (accumulate FindFlow stats) =? 0) = false).
  { intros c Hc. apply positive_not_zero.
    destruct (received_total_signs FindFlow c stats) as [Hn _].
    rewrite <- (ltb_zero_positive _ Hn). exact Hc. }
  destruct Hd as [Hd | Hd].
  - unfold report_VoIP in Hd.
    destruct (0 <? totalRxVoIP (accumulate FindFlow stats)) eqn:Eg;
      simpl in Hd; [| contradiction].
    pose proof (Hrx VoIP Eg) as Hnz. simpl in Hnz.
    destruct Hd as [<- | [<- | [<- | []]]]; simpl in *.
    + split; [left; reflexivity | apply (Hloss VoIP); exact Hz].
    + congruence.
    + congruence.
  - unfold report_FTP in Hd.
    destruct (0 <? totalRxFTP (accumulate FindFlow stats)) eqn:Eg;
      simpl in Hd; [| contradiction].
    pose proof (Hrx FTP Eg) as Hnz. simpl in Hnz.
    destruct Hd as [<- | [<- | [<- | []]]]; simpl in *.
    + split; [right; reflexivity | apply (Hloss FTP); exact Hz].
    + vm_compute in Hz. discriminate Hz.
    + congruence.
Qed.

Lemma loss_of_equal_totals x y :
  (x =? y) = true -> (0 <? y) = true -> (y <? infinity) = true ->
  spec_lossPercent x y = 0.
Proof.
  unfold spec_lossPercent. rewrite eqb_spec, !ltb_spec.
  change (Prim2SF 0) with (S754_zero false).
  change (Prim2SF infinity) with (S754_infinity false).
  intros Heq Hpos Hfin.
  apply Prim2SF_inj. rewrite mul_spec, div_spec, sub_spec.
  change (Prim2SF 0) with (S754_zero false).
  set (h := Prim2SF 100). vm_compute in h. subst h.
  unfold SFeqb, SFltb in *.
  destruct (Prim2SF x) as [[] | [] | | [] mx ex];
    destruct (Prim2SF y) as [[] | [] | | [] my ey];
    simpl in Heq, Hpos, Hfin;
    try discriminate Heq; try discriminate Hpos; try discriminate Hfin.
  destruct (Z.compare_spec ex ey) as [Ee | Ee | Ee]; try discriminate Heq.
  destruct (Pos.compare_spec mx my) as [Em | Em | Em];
    try (change (Pos.compare_cont Eq mx my) with (Pos.compare mx my) in Heq;
         rewrite (proj2 (Pos.compare_lt_iff mx my) Em) in Heq;
         discriminate Heq);
    try (change (Pos.compare_cont Eq mx my) with (Pos.compare mx my) in Heq;
         rewrite (proj2 (Pos.compare_gt_iff mx my) Em) in Heq;
         discriminate Heq).
  subst my ey.
  unfold SF64sub, SFsub. cbn [cond_Zopp]. rewrite Z.sub_diag.
  reflexivity.
Qed.

(** X9.  A reported class whose transmitted and received totals are equal
    and finite is reported with a loss of exactly zero. *)
Theorem equal_totals_no_loss (FindFlow : FlowId -> FiveTuple)
    (stats : list (FlowId * FlowStats)) (c : MeasuredClass) :
  let T := accumulate FindFlow stats in
  (class_totalTx c T =? class_totalRx c T) = true ->
  (0 <? class_totalRx c T) = true ->
  (class_totalRx c T <? infinity) = true ->
  printed_metric (class_title c) label_loss
    (fst (CheckMetrics FindFlow stats)) = Some 0.
Proof.
  intros T Heq Hpos Hfin.
  rewrite QoSProofs.received_loss_printed by exact Hpos.
  fold T. rewrite (loss_of_equal_totals _ _ Heq Hpos Hfin). reflexivity.
Qed.

(** *** The two classes are accumulated apart *)

Lemma loop_body_own_flow FindFlow c acc i :
  is_flow_of FindFlow c i = true ->
  loop_body FindFlow (class_part c acc) i =
  class_part c (loop_body FindFlow acc i).
Proof.
  unfold is_flow_of, loop_body. intros Hp.
  destruct c; simpl in Hp; apply Z.eqb_eq in Hp; rewrite Hp; reflexivity.
Qed.

Lemma loop_body_foreign_flow FindFlow c acc i :
  is_flow_of FindFlow c i = false ->
  class_part c (loop_body FindFlow acc i) = class_part c acc.
Proof.
  unfold is_flow_of, loop_body. intros Hp.
  destruct c; simpl in Hp.
  - rewrite Hp.
    destruct (sourcePort (FindFlow (fst i)) =? 10)%Z; reflexivity.
  - rewrite Hp.
    destruct (sourcePort (FindFlow (fst i)) =? 9)%Z; reflexivity.
Qed.

Lemma fold_flows_of FindFlow c stats : forall acc,
  fold_left (loop_body FindFlow) (flows_of FindFlow c stats)
    (class_part c acc) =
  class_part c (fold_left (loop_body FindFlow) stats acc).
Proof.
  induction stats as [| i stats IH]; intros acc; simpl.
  - reflexivity.
  - destruct (is_flow_of FindFlow c i) eqn:Ei; simpl.
    + rewrite (loop_body_own_flow _ _ _ _ Ei). apply IH.
    + rewrite <- (loop_body_foreign_flow _ _ acc _ Ei). apply IH.
Qed.

(** X10.  The accumulators of a class are those of the map restricted to
    the flows of the class, and so is its block: flows of the other
    class and background flows never change the figures of a class. *)
Theorem class_figures_from_own_flows (FindFlow : FlowId -> FiveTuple)
    (stats : list (FlowId * FlowStats)) (c : MeasuredClass) :
  accumulate FindFlow (flows_of FindFlow c stats) =
    class_part c (accumulate FindFlow stats)
  /\ find_block (class_title c)
       (fst (CheckMetrics FindFlow (flows_of FindFlow c stats))) =
     find_block (class_title c) (fst (CheckMetrics FindFlow stats)).
Proof.
  assert (Hacc : accumulate FindFlow (flows_of FindFlow c stats) =
                 class_part c (accumulate FindFlow stats)).
  { unfold accumulate. rewrite <- fold_flows_of.
    destruct c; reflexivity. }
  split; [exact Hacc |].
  rewrite !QoSProofs.CheckMetrics_unfold. rewrite Hacc.
  unfold find_block, report_VoIP, report_FTP.
  destruct c; simpl;
    destruct (0 <? totalRxVoIP (accumulate FindFlow stats));
    destruct (0 <? totalRxFTP (accumulate FindFlow stats));
    reflexivity.
Qed.

(** X11.  A flow map without any flow from source port 9 or 10, the
    empty map included, yields the banner alone: no block is printed
    and no division is evaluated. *)
Theorem no_measured_flow_empty_report (FindFlow : FlowId -> FiveTuple)
    (stats : list (FlowId * FlowStats)) :
  (forall i, In i stats ->
     sourcePort (FindFlow (fst i)) <> 9%Z
     /\ sourcePort (FindFlow (fst i)) <> 10%Z) ->
  CheckMetrics FindFlow stats =
  ({| banner := "--- Q3: QoS Performance Verification ---";
      blocks := [] |}, []).
Proof.
  intros Hbg.
  assert (Hacc : forall acc,
            fold_left (loop_body FindFlow) stats acc = acc).
  { induction stats as [| i stats IH]; intros acc; simpl.
    - reflexivity.
    - destruct (Hbg i (or_introl eq_refl)) as [H9 H10].
      rewrite (QoSProofs.loop_body_unknown FindFlow acc i H9 H10).
      apply IH. intros i' Hi'. apply Hbg. right. exact Hi'. }
  unfold CheckMetrics, accumulate. rewrite Hacc. reflexivity.
Qed.

(** X12.  Flows are attributed by source port alone: two classifiers
    that give every flow of the map the same source port yield the same
    report and the same divisions, whatever addresses, protocol and
    destination port they give. *)
Theorem attribution_by_source_port_only
    (FindFlow FindFlow' : FlowId -> FiveTuple)
    (stats : list (FlowId * FlowStats)) :
  (forall i, In i stats ->
     sourcePort (FindFlow (fst i)) = sourcePort (FindFlow' (fst i))) ->
  CheckMetrics FindFlow stats = CheckMetrics FindFlow' stats.
Proof.
  intros Hsame.
  assert (Hacc : forall acc,
            fold_left (loop_body FindFlow) stats acc =
            fold_left (loop_body FindFlow') stats acc).
  { induction stats as [| i stats IH]; intros acc; simpl.
    - reflexivity.
    - replace (loop_body FindFlow' acc i) with (loop_body FindFlow acc i).
      + apply IH. intros i' Hi'. apply Hsame. right. exact Hi'.
      + unfold loop_body. rewrite (Hsame i (or_introl eq_refl)).
        reflexivity. }
  unfold CheckMetrics, accumulate. rewrite Hacc. reflexivity.
Qed.

(** *** The theorems on the sample flow maps *)

Lemma attribution_by_source_port_only_witness :
  (forall i, In i stats_mixed ->
     sourcePort (port_is_id (fst i)) =
     sourcePort (port_is_id_elsewhere (fst i)))
  /\ CheckMetrics port_is_id stats_mixed =
     CheckMetrics port_is_id_elsewhere stats_mixed.
Proof.
  assert (Hsame : forall i, In i stats_mixed ->
                    sourcePort (port_is_id (fst i)) =
                    sourcePort (port_is_id_elsewhere (fst i))).
  { intros i _. reflexivity. }
  split; [exact Hsame |].
  apply (attribution_by_source_port_only port_is_id port_is_id_elsewhere
           stats_mixed Hsame).
Defined.

Lemma received_without_transmitted_loss_witness :
  class_transmitted port_is_id VoIP stats_rx_without_tx = false
  /\ class_received port_is_id VoIP stats_rx_without_tx = true
  /\ printed_metric (class_title VoIP) label_loss
       (fst (CheckMetrics port_is_id stats_rx_without_tx))
     = Some neg_infinity.
Proof.
  split; [reflexivity |]. split; [reflexivity |].
  apply (received_without_transmitted_loss port_is_id stats_rx_without_tx
           VoIP);
    reflexivity.
Defined.

Lemma zero_divisor_only_in_loss_witness :
  In {| div_class := VoIP; div_target := "lossVoIP";
        dividend := -5; divisor := 0 |}
     (snd (CheckMetrics port_is_id stats_rx_without_tx))
  /\ class_transmitted port_is_id VoIP stats_rx_without_tx = false.
Proof.
  assert (Hin : In {| div_class := VoIP; div_target := "lossVoIP";
                      dividend := -5; divisor := 0 |}
                   (snd (CheckMetrics port_is_id stats_rx_without_tx))).
  { vm_compute. left. reflexivity. }
  split; [exact Hin |].
  exact (proj2 (zero_divisor_only_in_loss port_is_id stats_rx_without_tx
                  _ Hin eq_refl)).
Defined.

Lemma equal_totals_no_loss_witness :
  (class_totalTx VoIP (accumulate port_is_id stats_mixed)
   =? class_totalRx VoIP (accumulate port_is_id stats_mixed)) = true
  /\ (0 <? class_totalRx VoIP (accumulate port_is_id stats_mixed)) = true
  /\ (class_totalRx VoIP (accumulate port_is_id stats_mixed) <? infinity)
     = true
  /\ printed_metric (class_title VoIP) label_loss
       (fst (CheckMetrics port_is_id stats_mixed)) = Some 0.
Proof.
  split; [vm_compute; reflexivity |]. split; [vm_compute; reflexivity |].
  split; [vm_compute; reflexivity |].
  apply (equal_totals_no_loss port_is_id stats_mixed VoIP);
    vm_compute; reflexivity.
Defined.

Lemma no_measured_flow_empty_report_witness :
  (forall i, In i stats_background ->
     sourcePort (port_is_id (fst i)) <> 9%Z
     /\ sourcePort (port_is_id (fst i)) <> 10%Z)
  /\ CheckMetrics port_is_id stats_background =
     ({| banner := "--- Q3: QoS Performance Verification ---";
         blocks := [] |}, []).
Proof.
  assert (Hbg : forall i, In i stats_background ->
                  sourcePort (port_is_id (fst i)) <> 9%Z
                  /\ sourcePort (port_is_id (fst i)) <> 10%Z).
  { intros i [<- | [<- | []]]; split; discriminate. }
  split; [exact Hbg |].
  apply (no_measured_flow_empty_report port_is_id stats_background Hbg).
Defined.

End QoSMore.
